(** * GECCO: dispatch, remote execution and document editing

    A shallow embedding of [gecco.py] (classes [ProcessorThread],
    [Corrector], [LoadBalanceMaster], [LineByLineClient],
    [LineByLineServerHandler], [Module]) and of
    [gecco/modules/lexicon.py] ([LexiconModule]).

    Python code that can raise is embedded in an exception monad; code
    that mutates an object threads that object's state explicitly.  A
    name that a function reads without binding it (neither a parameter
    nor assigned in the body) is resolved in the module's global
    namespace, which is an explicit argument [G] of the embedding:
    [gecco_globals] is the namespace that [gecco.py] itself creates. *)

From stdpp Require Import gmap strings list.
From Stdlib Require Import ZArith.

Open Scope string_scope.
Open Scope list_scope.

(** ** Python exceptions and results *)

Module Py.

Inductive exn : Type :=
| NameError (name : string)
| UnboundLocalError (name : string)
| AttributeError (attr : string)
| TypeError (msg : string)
| KeyError (key : string)
| IndexError
| ValueError
| NotImplementedError
| RuntimeError
| Exception (msg : string).

Inductive res (A : Type) : Type :=
| Ok (a : A)
| Raise (e : exn).
Arguments Ok {A} a.
Arguments Raise {A} e.

Definition bind {A B} (r : res A) (k : A -> res B) : res B :=
  match r with
  | Ok a => k a
  | Raise e => Raise e
  end.

Definition is_ok {A} (r : res A) : bool :=
  match r with Ok _ => true | Raise _ => false end.

(** Reading a global name: [NameError] when the namespace has no
    binding for it. *)
Definition global {A} (name : string) (binding : option A) : res A :=
  match binding with
  | Some v => Ok v
  | None => Raise (NameError name)
  end.

(** Reading a local variable of a function that assigns it somewhere in
    its body: [UnboundLocalError] before the first assignment. *)
Definition local_var {A} (name : string) (binding : option A) : res A :=
  match binding with
  | Some v => Ok v
  | None => Raise (UnboundLocalError name)
  end.

(** Reading an instance attribute. *)
Definition attr {A} (name : string) (binding : option A) : res A :=
  match binding with
  | Some v => Ok v
  | None => Raise (AttributeError name)
  end.

(** Code that changes a state of type [W] returns a value, raises, or
    waits for ever inside a call that never returns (acquiring a lock
    that is held, reading from a socket that stays silent).  A loop is
    unrolled a given number of times; [OutOfFuel] is the state reached
    when that number did not suffice. *)
Inductive outcome (W A : Type) : Type :=
| Returns (a : A) (w : W)
| Raises (e : exn) (w : W)
| Blocks (w : W)
| OutOfFuel (w : W).
Arguments Returns {W A} a w.
Arguments Raises {W A} e w.
Arguments Blocks {W A} w.
Arguments OutOfFuel {W A} w.

Definition eff (W A : Type) : Type := W -> outcome W A.

Definition ret {W A} (a : A) : eff W A := fun w => Returns a w.

Definition raise {W A} (e : exn) : eff W A := fun w => Raises e w.

Definition seq {W A B} (m : eff W A) (k : A -> eff W B) : eff W B :=
  fun w =>
    match m w with
    | Returns a w' => k a w'
    | Raises e w' => Raises e w'
    | Blocks w' => Blocks w'
    | OutOfFuel w' => OutOfFuel w'
    end.

Definition lift {W A} (r : res A) : eff W A :=
  fun w =>
    match r with
    | Ok a => Returns a w
    | Raise e => Raises e w
    end.

Definition final {W A} (o : outcome W A) : W :=
  match o with
  | Returns _ w => w
  | Raises _ w => w
  | Blocks w => w
  | OutOfFuel w => w
  end.

(** Running code that works on a part [V] of the state [W]. *)
Definition zoom {W V A} (proj : W -> V) (upd : V -> W -> W) (m : eff V A)
  : eff W A :=
  fun w =>
    match m (proj w) with
    | Returns a v => Returns a (upd v w)
    | Raises e v => Raises e (upd v w)
    | Blocks v => Blocks (upd v w)
    | OutOfFuel v => OutOfFuel (upd v w)
    end.

End Py.
Import Py.

Notation "'let?' x ':=' r 'in' k" := (Py.bind r (fun x => k))
  (at level 10, x pattern, r at level 100, k at level 200, only parsing).
Notation "'let*' x ':=' m 'in' k" := (Py.seq m (fun x => k))
  (at level 10, x pattern, m at level 100, k at level 200, only parsing).

(** ** Values shared by the classes *)

(** A server endpoint, the 2-tuple [(host, port)]. *)
Abbreviation Endpoint := (string * Z)%type.

(** The FoLiA classes that are used as a module's [UNIT]. *)
Inductive UnitKind : Type :=
| Document
| Sentence
| Word.

Global Instance UnitKind_eq_dec : EqDecision UnitKind.
Proof. solve_decision. Defined.

(** Values stored in a settings dictionary. *)
Inductive Setting : Type :=
| SStr (s : string)
| SInt (z : Z)
| SBool (b : bool)
| SStrs (l : list string)
| SServers (l : list Endpoint)
| SLogFunction.

Global Instance Endpoint_list_eq_dec : EqDecision (list (string * Z)).
Proof. solve_decision. Defined.

Global Instance Setting_eq_dec : EqDecision Setting.
Proof. solve_decision. Defined.

(** [LoadBalanceMaster]: two attributes and a [get] whose body is only a
    docstring, so it returns [None] and has no effect. *)
Record LoadBalanceMaster : Type := {
  availableservers : list Endpoint;
  minpollinterval : Z
}.

(** The one queue object a processing run creates. *)
Inductive QueueRef : Type :=
| DispatchQueue.

(** The global names that the functions below read without binding,
    each with the kind of value the function uses it as. *)
Record Globals : Type := {
  g_q : option QueueRef;
  g_host : option string;
  g_port : option Z;
  g_units : option (list UnitKind);
  g_loadbalancemaster : option LoadBalanceMaster;
  g_suggestion : option (list string);
  g_datetime : option Z
}.

(** [gecco.py] binds [UCTOSEARCHDIRS], its imports and its classes at top
    level, and none of the names above ([datetime] is not imported). *)
Definition gecco_globals : Globals := {|
  g_q := None;
  g_host := None;
  g_port := None;
  g_units := None;
  g_loadbalancemaster := None;
  g_suggestion := None;
  g_datetime := None
|}.

(** ** FoLiA values seen by the editing methods *)

(** A [folia.Word]: its [id], its [text()] and the id of the sentence that
    [sentence()] returns ([None] when the word is in no sentence). *)
Record FoliaWord : Type := {
  word_id : string;
  word_text : string;
  word_sentence : option string
}.

(** The structural edits, with the arguments the methods pass to FoLiA. *)
Inductive Edit : Type :=
| Correction (word : string) (id : string) (suggestions : list string)
    (set cls annotator : Setting) (datetime : Z) (confidence : option Z)
| ErrorDetection (word : string) (set cls annotator : Setting) (datetime : Z)
| Split (word : string) (newwords : list string) (datetime : Z)
| Merge (sentence : string) (newword : string) (originalwords : list string)
    (datetime : Z).

(** What a thread does to the objects it shares with the other threads:
    the log function, the mutation lock and the document. *)
Inductive Event : Type :=
| EvLog (msg : string)
| EvAcquire
| EvRelease
| EvEdit (e : Edit).

(** The shared lock and the history of events, oldest first. *)
Record Shared : Type := {
  lock_held : bool;
  events : list Event
}.

Definition emit (ev : Event) : eff Shared unit :=
  fun w => Returns tt {| lock_held := lock_held w; events := events w ++ [ev] |}.

(** [lock.acquire()] of a [threading.Lock]: waits while the lock is held. *)
Definition acquire : eff Shared unit :=
  fun w =>
    if lock_held w then Blocks w
    else Returns tt {| lock_held := true; events := events w ++ [EvAcquire] |}.

(** [lock.release()]: [RuntimeError] on a lock that is not held. *)
Definition release : eff Shared unit :=
  fun w =>
    if lock_held w
    then Returns tt {| lock_held := false; events := events w ++ [EvRelease] |}
    else Raises RuntimeError w.

(** The edits that reached the document. *)
Definition edits_of (evs : list Event) : list Edit :=
  omap (fun ev => match ev with EvEdit e => Some e | _ => None end) evs.

(** ** class LoadBalanceMaster *)

(** The candidate lists handed to [LoadBalanceMaster.get], oldest first. *)
Definition LBLog : Type := list (list Endpoint).

Module LoadBalance.

(** [get] has a docstring and a TODO for body: it returns [None]. *)
Definition get (self : LoadBalanceMaster) (servers : list Endpoint)
  : eff LBLog (option Endpoint) :=
  fun log => Returns None (log ++ [servers]).

End LoadBalance.

(** ** class Module *)

Module Mod.

Record t : Type := {
  id : string;
  class_name : string;
  UNIT : UnitKind;
  settings : gmap string Setting;
  local : bool;
  sources : option Setting;
  models : option Setting;
  doc : option string
}.

Definition getitem (key : string) (d : gmap string Setting) : res Setting :=
  match d !! key with
  | Some v => Ok v
  | None => Raise (KeyError key)
  end.

(** [if not key in d: d[key] = v] *)
Definition setdefault (key : string) (v : Setting) (d : gmap string Setting)
  : gmap string Setting :=
  match d !! key with
  | Some _ => d
  | None => <[key := v]> d
  end.

(** [d[single]] wrapped in a list when it is a string, else [d[plural]],
    else the attribute stays as it was. *)
Definition one_or_many (single plural : string) (d : gmap string Setting)
    (old : option Setting) : option Setting :=
  match d !! single with
  | Some (SStr s) => Some (SStrs [s])
  | Some v => Some v
  | None =>
      match d !! plural with
      | Some v => Some v
      | None => old
      end
  end.

Definition verifysettings (self : t) : t :=
  let d := settings self in
  let local' := bool_decide (is_Some (d !! "servers")) in
  let sources' := one_or_many "source" "sources" d (sources self) in
  let models' := one_or_many "model" "models" d (models self) in
  let d := setdefault "logfunction" SLogFunction d in
  let d := setdefault "set"
    (SStr "https://raw.githubusercontent.com/proycon/folia/master/setdefinitions/spellingcorrection.foliaset.xml") d in
  let d := setdefault "class" (SStr "nonworderror") d in
  let d := setdefault "annotator" (SStr ("Gecco-" +:+ class_name self)) d in
  {| id := id self; class_name := class_name self; UNIT := UNIT self;
     settings := d; local := local'; sources := sources';
     models := models'; doc := doc self |}.

(** [__init__(id, **settings)] of the class named [cls] whose [UNIT] is
    [kind]; [local] has no value before [verifysettings] assigns it. *)
Definition init_ (cls : string) (kind : UnitKind) (id : string)
    (settings : gmap string Setting) : t :=
  verifysettings
    {| id := id; class_name := cls; UNIT := kind; settings := settings;
       local := false; sources := None; models := None; doc := None |}.

(** The module's candidate endpoints: [settings['servers']], and no
    endpoint when the key is absent. *)
Definition servers (self : t) : list Endpoint :=
  match settings self !! "servers" with
  | Some (SServers l) => l
  | _ => []
  end.

(** [settings['servers']] as the list of 2-tuples that the callers
    unpack; a value of another shape is a [TypeError]. *)
Definition servers_setting (self : t) : res (list Endpoint) :=
  let? v := getitem "servers" (settings self) in
  match v with
  | SServers l => Ok l
  | _ => Raise (TypeError "servers")
  end.

Definition findserver (G : Globals) (self : t)
    (loadbalanceserver : LoadBalanceMaster) : eff LBLog (option Endpoint) :=
  if local self then raise (Exception "Module is local")
  else
    let* l := lift (servers_setting self) in
    if (length l =? 1)%nat then
      match l with
      | e :: _ => ret (Some e)
      | [] => raise IndexError
      end
    else
      let* loadbalancemaster :=
        lift (global "loadbalancemaster" (g_loadbalancemaster G)) in
      let* l := lift (servers_setting self) in
      LoadBalance.get loadbalancemaster l.

(** *** Callbacks with a default body *)

Definition finish (self : t) : bool := false.

Definition train (self : t) : bool := false.

Definition run {A} (self : t) (data : A) : eff Shared unit :=
  raise NotImplementedError.

Definition runclient {A C} (self : t) (client : C) (data : A)
  : eff Shared unit :=
  raise NotImplementedError.

Definition server_handler (self : t) (msg : string) : res string :=
  Raise NotImplementedError.

(** *** FoLiA editing *)

Definition log (msg : string) : eff Shared unit := emit (EvLog msg).

(** [word.generate_id(folia.Correction)] is a call into the FoLiA
    library; only the fact that it returns an identifier is used. *)
Definition generate_id (word : FoliaWord) : string :=
  word_id word +:+ ".correction".

Definition addwordsuggestions (G : Globals) (self : t) (word : FoliaWord)
    (suggestions : list string) (confidence : option Z) : eff Shared unit :=
  let* _ := log ("Adding correction for " +:+ word_id word +:+ " "
                   +:+ word_text word) in
  let* _ := acquire in
  let correction_id := generate_id word in
  let* suggestion := lift (global "suggestion" (g_suggestion G)) in
  let* set := lift (getitem "set" (settings self)) in
  let* cls := lift (getitem "class" (settings self)) in
  let* annotator := lift (getitem "annotator" (settings self)) in
  let* now := lift (global "datetime" (g_datetime G)) in
  let* _ := emit (EvEdit (Correction (word_id word) correction_id suggestion
                            set cls annotator now confidence)) in
  release.

Definition adderrordetection (G : Globals) (self : t) (word : FoliaWord)
  : eff Shared unit :=
  let* _ := log ("Adding correction for " +:+ word_id word +:+ " "
                   +:+ word_text word) in
  let* _ := acquire in
  let* _ := lift (attr "doc" (doc self)) in
  let* set := lift (getitem "set" (settings self)) in
  let* cls := lift (getitem "class" (settings self)) in
  let* annotator := lift (getitem "annotator" (settings self)) in
  let* now := lift (global "datetime" (g_datetime G)) in
  let* _ := emit (EvEdit (ErrorDetection (word_id word) set cls annotator
                            now)) in
  release.

Definition splitcorrection (G : Globals) (self : t) (word : FoliaWord)
    (newwords : list string) : eff Shared unit :=
  let* _ := acquire in
  let sentence := word_sentence word in
  let* _ := match newwords with
            | [] => ret ""
            | _ :: _ => lift (attr "doc" (doc self))
            end in
  let* now := lift (global "datetime" (g_datetime G)) in
  let* _ := emit (EvEdit (Split (word_id word) newwords now)) in
  release.

Definition mergecorrection (G : Globals) (self : t) (newword : string)
    (originalwords : list FoliaWord) : eff Shared unit :=
  let* _ := acquire in
  let* first := match originalwords with
                | w :: _ => ret w
                | [] => raise IndexError
                end in
  match word_sentence first with
  | None =>
      raise (Exception ("Expected sentence for " +:+ word_id first
                          +:+ ", got None"))
  | Some sentence =>
      let* _ := lift (attr "doc" (doc self)) in
      let* now := lift (global "datetime" (g_datetime G)) in
      let* _ := emit (EvEdit (Merge sentence newword
                                (map word_id originalwords) now)) in
      release
  end.

(** *** Truth values and the callback init *)

(** [if v:] for a value of a settings dictionary. *)
Definition truthy (v : Setting) : bool :=
  match v with
  | SStr s => negb (bool_decide (s = ""))
  | SInt z => negb (z =? 0)%Z
  | SBool b => b
  | SStrs l => negb (bool_decide (l = []))
  | SServers l => negb (bool_decide (l = []))
  | SLogFunction => true
  end.

(** [init(foliadoc)]: the document is seen through the sets it declares
    for [folia.Correction], oldest first.  The method returns [True]. *)
Definition init (self : t) (declared : list Setting) : list Setting :=
  match settings self !! "set" with
  | Some set =>
      if truthy set then
        if bool_decide (set ∈ declared) then declared
        else declared ++ [set]
      else declared
  | None => declared
  end.

End Mod.

(** ** class LineByLineClient and class LineByLineServerHandler *)

(** A [str] is the Rocq string of its UTF-8 encoding and a [bytes] object
    is a list of bytes, so that [encode('utf-8')] and [str(b, 'utf-8')]
    are the two conversions of the standard library. *)
Definition bytes : Type := list Byte.byte.

Definition encode (s : string) : bytes := String.list_byte_of_string s.

Definition decode (b : bytes) : string := String.string_of_list_byte b.

(** [b"\n"] *)
Definition newline : bytes := [Byte.x0a].

(** [b[-1]]: indexing a [bytes] object gives an [int]. *)
Definition last_byte (b : bytes) : res Byte.byte :=
  match last b with
  | Some x => Ok x
  | None => Raise IndexError
  end.

(** [b[-1] == b"\n"] compares an [int] with a [bytes] object: the two
    are never equal. *)
Definition int_eq_bytes (i : Byte.byte) (b : bytes) : bool := false.

(** One end of a stream connection: the chunks that successive
    [recv(1024)] calls will return, whether the peer closes after them,
    and the payloads given to [sendall], oldest first. *)
Record Stream : Type := {
  incoming : list bytes;
  peer_closed : bool;
  sent : list bytes
}.

(** [recv(1024)]: the next chunk; [b''] once the peer has closed; waits
    while the peer is silent. *)
Definition recv : eff Stream bytes :=
  fun w =>
    match incoming w with
    | c :: rest =>
        Returns c {| incoming := rest; peer_closed := peer_closed w;
                     sent := sent w |}
    | [] => if peer_closed w then Returns [] w else Blocks w
    end.

Definition sendall (msg : bytes) : eff Stream unit :=
  fun w =>
    Returns tt {| incoming := incoming w; peer_closed := peer_closed w;
                  sent := sent w ++ [msg] |}.

Module LineByLineClient.

(** The attributes [__init__] sets are [socket] and [connected];
    [sock] is read by [send] and assigned nowhere in the class.  The
    state also holds the endpoint [socket.connect] was called with and
    the stream of the connection. *)
Record t : Type := {
  connected : bool;
  sock : option unit;
  peer : option Endpoint;
  stream : Stream
}.

Definition init_ (host : string) (port : Z) (s : Stream) : t :=
  {| connected := false; sock := None; peer := None; stream := s |}.

Definition on_stream {A} (m : eff Stream A) : eff t A :=
  zoom stream
    (fun s w => {| connected := connected w; sock := sock w;
                   peer := peer w; stream := s |}) m.

Definition connect (G : Globals) : eff t unit :=
  let* host := lift (global "host" (g_host G)) in
  let* port := lift (global "port" (g_port G)) in
  fun w =>
    Returns tt {| connected := true; sock := sock w;
                  peer := Some (host, port); stream := stream w |}.

Definition send (G : Globals) (msg : string) : eff t unit :=
  let* _ := fun w => if connected w then Returns tt w else connect G w in
  let msg := encode msg in
  let* l := lift (last_byte msg) in
  let msg := if negb (int_eq_bytes l newline) then msg ++ newline else msg in
  let* _ := fun w => lift (attr "sock" (sock w)) w in
  on_stream (sendall msg).

(** In [receive] the name [socket] is the imported module, which has no
    function [recv]. *)
Definition module_socket_recv : eff t bytes :=
  raise (AttributeError "recv").

Fixpoint receive_loop (fuel : nat) (buffer : bytes) : eff t string :=
  match fuel with
  | O => fun w => OutOfFuel w
  | S fuel' =>
      let* chunk := module_socket_recv in
      let buffer := buffer ++ chunk in
      let* l := lift (last_byte buffer) in
      if int_eq_bytes l newline then ret (decode buffer)
      else receive_loop fuel' buffer
  end.

Definition receive (fuel : nat) : eff t string := receive_loop fuel [].

(** [communicate] ends after the assignment to [answer]: a call that
    completes returns [None]. *)
Definition communicate (fuel : nat) (G : Globals) (msg : string)
  : eff t (option string) :=
  let* _ := send G msg in
  let* answer := receive fuel in
  ret None.

End LineByLineClient.

Module LineByLineServerHandler.

(** The loop of [handle]; [buffer] is a local variable of [handle] that
    has no value when the loop starts. *)
Fixpoint handle_loop (fuel : nat) (buffer : option bytes)
  : eff Stream bytes :=
  match fuel with
  | O => fun w => OutOfFuel w
  | S fuel' =>
      let* old := lift (local_var "buffer" buffer) in
      let* chunk := recv in
      let buffer := old ++ chunk in
      let* l := lift (last_byte buffer) in
      if int_eq_bytes l newline then ret buffer
      else handle_loop fuel' (Some buffer)
  end.

(** [server_handler] is [self.server.module.server_handler]. *)
Definition handle (fuel : nat) (server_handler : string -> res string)
  : eff Stream unit :=
  let* buffer := handle_loop fuel None in
  let msg := decode buffer in
  let* response := lift (server_handler msg) in
  let response := encode response in
  let* l := lift (last_byte response) in
  let response :=
    if negb (int_eq_bytes l newline) then response ++ newline
    else response in
  sendall response.

End LineByLineServerHandler.

(** ** class ProcessorThread *)

(** The unit a work item carries: the document itself for a module whose
    [UNIT] is [folia.Document], else an element selected from it. *)
Inductive Data : Type :=
| WholeDocument (doc_id : string)
| Element (kind : UnitKind) (elem_id : string).

Global Instance Data_eq_dec : EqDecision Data.
Proof. solve_decision. Defined.

(** A client object: the number it was constructed as (its identity) and
    the arguments its class was called with. *)
Record ClientObj : Type := {
  client_no : nat;
  client_args : string * Z
}.

Module ProcessorThread.

(** The thread's attributes, together with the state of the objects it
    reaches through them: the queue with its count of unfinished tasks,
    the lock and document, and the load balancer's record of calls.
    [__init__] assigns [False] to [self.stop], which hides the method
    of that name. *)
Record t : Type := {
  stop : bool;
  loadbalancemaster : LoadBalanceMaster;
  clients : gmap Endpoint ClientObj;
  constructed : nat;
  queue : list (Mod.t * Data);
  unfinished : nat;
  shared : Shared;
  lblog : LBLog
}.

Definition init_ (q : list (Mod.t * Data)) (pending : nat) (sh : Shared)
    (lbm : LoadBalanceMaster) (log : LBLog) : t :=
  {| stop := false; loadbalancemaster := lbm; clients := ∅;
     constructed := 0; queue := q; unfinished := pending; shared := sh;
     lblog := log |}.

Definition on_shared {A} (m : eff Shared A) : eff t A :=
  zoom shared
    (fun s w => {| stop := stop w; loadbalancemaster := loadbalancemaster w;
                   clients := clients w; constructed := constructed w;
                   queue := queue w; unfinished := unfinished w;
                   shared := s; lblog := lblog w |}) m.

Definition on_lblog {A} (m : eff LBLog A) : eff t A :=
  zoom lblog
    (fun l w => {| stop := stop w; loadbalancemaster := loadbalancemaster w;
                   clients := clients w; constructed := constructed w;
                   queue := queue w; unfinished := unfinished w;
                   shared := shared w; lblog := l |}) m.

(** [q.empty()] *)
Definition q_empty (q : QueueRef) : eff t bool :=
  fun w => Returns (bool_decide (queue w = [])) w.

(** [q.get()]: removes and returns the oldest item, waits on an empty
    queue. *)
Definition q_get (q : QueueRef) : eff t (Mod.t * Data) :=
  fun w =>
    match queue w with
    | item :: rest =>
        Returns item
          {| stop := stop w; loadbalancemaster := loadbalancemaster w;
             clients := clients w; constructed := constructed w;
             queue := rest; unfinished := unfinished w;
             shared := shared w; lblog := lblog w |}
    | [] => Blocks w
    end.

(** [q.task_done()]: one unfinished task less; [ValueError] when called
    more often than items were put. *)
Definition q_task_done (q : QueueRef) : eff t unit :=
  fun w =>
    match unfinished w with
    | S n =>
        Returns tt
          {| stop := stop w; loadbalancemaster := loadbalancemaster w;
             clients := clients w; constructed := constructed w;
             queue := queue w; unfinished := n;
             shared := shared w; lblog := lblog w |}
    | O => Raises ValueError w
    end.

(** [self.clients[key] = module.CLIENT(host, port)]: a new client
    object is constructed and stored under [key]. *)
Definition store_new_client (key : Endpoint) (host : string) (port : Z)
  : eff t unit :=
  fun w =>
    let c := {| client_no := constructed w; client_args := (host, port) |} in
    Returns tt
      {| stop := stop w; loadbalancemaster := loadbalancemaster w;
         clients := <[key := c]> (clients w);
         constructed := S (constructed w);
         queue := queue w; unfinished := unfinished w;
         shared := shared w; lblog := lblog w |}.

(** [self.clients[key]] *)
Definition cached_client (key : Endpoint) : eff t ClientObj :=
  fun w =>
    match clients w !! key with
    | Some c => Returns c w
    | None => Raises (KeyError "clients") w
    end.

Section Callbacks.

(** The methods a module's class overrides: [run(data, lock)] and
    [runclient(client, data, lock)]. *)
Variable module_run : Mod.t -> Data -> eff Shared unit.
Variable module_runclient : Mod.t -> ClientObj -> Data -> eff Shared unit.

(** What [run] does with the item it took from the queue, up to but
    not including [q.task_done()]. *)
Definition run_item (G : Globals) (item : Mod.t * Data) : eff t unit :=
  let (module, data) := item in
  if Mod.local module then on_shared (module_run module data)
  else
    let* found := fun w =>
      on_lblog (Mod.findserver G module (loadbalancemaster w)) w in
    let* endpoint :=
      match found with
      | Some e => ret e
      | None => raise (TypeError "cannot unpack non-iterable NoneType object")
      end in
    let server := fst endpoint in
    let port := snd endpoint in
    let* _ := fun w =>
      match clients w !! (server, port) with
      | Some _ => Returns tt w
      | None =>
          (let* host := lift (global "host" (g_host G)) in
           store_new_client (server, port) host port) w
      end in
    let* client := cached_client (server, port) in
    on_shared (module_runclient module client data).

Fixpoint run (fuel : nat) (G : Globals) : eff t unit :=
  match fuel with
  | O => fun w => OutOfFuel w
  | S fuel' =>
      fun w =>
        if stop w then Returns tt w
        else
          (let* q := lift (global "q" (g_q G)) in
           let* empty := q_empty q in
           if negb empty then
             let* item := q_get q in
             let* _ := run_item G item in
             let* _ := q_task_done q in
             run fuel' G
           else run fuel' G) w
  end.

End Callbacks.

End ProcessorThread.

(** ** class Corrector *)

(** A FoLiA document as [Corrector.run] uses it: an identifier and the
    structural elements in document order, each with its class. *)
Record FoliaDoc : Type := {
  doc_id : string;
  elements : list (UnitKind * string)
}.

(** [foliadoc.select(unit)] *)
Definition select (foliadoc : FoliaDoc) (kind : UnitKind) : list Data :=
  omap (fun el : UnitKind * string =>
          if decide (fst el = kind) then Some (Element kind (snd el))
          else None)
       (elements foliadoc).

(** What [Corrector.run] does to the objects around it, one action per
    call, in program order. *)
Inductive Action : Type :=
| ALog (msg : string)
| AInit (module : Mod.t)
| AStart
| APut (item : Mod.t * Data)
| AJoin
| AStop
| AFinish (module : Mod.t)
| ASave
| ARaise (e : exn).

Definition act (a : Action) : eff (list Action) unit :=
  fun done => Returns tt (done ++ [a]).

(** [for x in l: body x] *)
Fixpoint for_each {W A} (l : list A) (body : A -> eff W unit) : eff W unit :=
  match l with
  | [] => ret tt
  | x :: rest => let* _ := body x in for_each rest body
  end.

Module Corrector.

(** [modules] is the [OrderedDict] from id to module, in insertion
    order; [units] is the attribute that [__init__] assigns. *)
Record t : Type := {
  settings : gmap string Setting;
  modules : list (string * Mod.t);
  loadbalancemaster : LoadBalanceMaster;
  units : list UnitKind
}.

(** [for module in self] *)
Definition iter (self : t) : list Mod.t := map snd (modules self).

(** [m.server] for a module [m]: no class assigns such an attribute. *)
Definition module_server (m : Mod.t) : res UnitKind :=
  Raise (AttributeError "server").

(** [set([m.server for m in self])] *)
Fixpoint collect_units (ms : list Mod.t) : res (list UnitKind) :=
  match ms with
  | [] => Ok []
  | m :: rest =>
      let? u := module_server m in
      let? us := collect_units rest in
      Ok (if decide (u ∈ us) then us else u :: us)
  end.

(** [__init__]: [verifysettings] is declared without a [self]
    parameter, so calling it as a method is a [TypeError]; the
    statements after the call work on the empty registry that
    [__init__] has just created, and [LoadBalanceMaster] is called
    without its second argument. *)
Definition init_ (settings : gmap string Setting) : res t :=
  let? _ := (Raise (TypeError "verifysettings() takes 0 positional arguments but 1 was given") : res unit) in
  let modules := [] in
  let? lbm := (Raise (TypeError "__init__() missing 1 required positional argument: 'minpollinterval'") : res LoadBalanceMaster) in
  let? units := collect_units (map snd modules) in
  Ok {| settings := settings; modules := modules;
        loadbalancemaster := lbm; units := units |}.

(** [range(self.settings['threads'])] as a number of iterations. *)
Definition thread_count (self : t) : res nat :=
  match settings self !! "threads" with
  | None => Raise (KeyError "threads")
  | Some (SInt n) => Ok (Z.to_nat n)
  | Some _ => Raise (TypeError "range")
  end.

(** The loop that creates the threads; [queue] is the local variable
    of [run], which has no value before [queue = Queue()]. *)
Fixpoint start_threads (n : nat) (queue : option QueueRef)
  : eff (list Action) nat :=
  match n with
  | O => ret O
  | S n' =>
      let* _ := lift (local_var "queue" queue) in
      let* _ := act AStart in
      let* started := start_threads n' queue in
      ret (S started)
  end.

(** [thread.stop()] calls the attribute [stop], which is [False]. *)
Definition stop_threads (threads : nat) : eff (list Action) unit :=
  match threads with
  | O => ret tt
  | S _ => raise (TypeError "'bool' object is not callable")
  end.

(** [if module.UNIT is kind: queue.put( (module, data) )] *)
Definition put_if (kind : UnitKind) (data : Data) (module : Mod.t)
  : eff (list Action) unit :=
  if decide (Mod.UNIT module = kind) then act (APut (module, data))
  else ret tt.

(** [run], from the initialisation of the modules on; [foliadoc] is a
    document (for a file name the code before loads the document). *)
Definition run (G : Globals) (self : t) (foliadoc : FoliaDoc)
  : eff (list Action) unit :=
  let* _ := act (ALog "Initialising modules on document") in
  let* _ := for_each (iter self) (fun module => act (AInit module)) in
  let* _ := act (ALog "Initialising threads") in
  let queue : option QueueRef := None in
  let* n := lift (thread_count self) in
  let* threads := start_threads n queue in
  let queue := Some DispatchQueue in
  let* units := lift (global "units" (g_units G)) in
  let* _ :=
    if decide (Document ∈ units) then
      let* _ := act (ALog "Queuing modules handling documents") in
      for_each (iter self)
        (put_if Document (WholeDocument (doc_id foliadoc)))
    else ret tt in
  let* _ :=
    for_each units (fun kind =>
      if decide (kind = Document) then ret tt
      else
        let* _ := act (ALog "Queuing modules handling elements") in
        for_each (select foliadoc kind) (fun data =>
          for_each (iter self) (put_if kind data))) in
  let* _ := act (ALog "Processing all modules....") in
  let* _ := act AJoin in
  let* _ := stop_threads threads in
  let* _ := act (ALog "Finalising modules on document") in
  let* _ := for_each (iter self) (fun module => act (AFinish module)) in
  let* _ := act (ALog "Processing all modules....") in
  act ASave.

(** The actions of a call of [run], ended by the exception if one
    leaves it. *)
Definition script (G : Globals) (self : t) (foliadoc : FoliaDoc)
  : list Action :=
  match run G self foliadoc [] with
  | Returns _ done => done
  | Raises e done => done ++ [ARaise e]
  | Blocks done => done
  | OutOfFuel done => done
  end.

(** The work items a list of actions enqueues. *)
Definition puts (l : list Action) : list (Mod.t * Data) :=
  omap (fun a => match a with APut item => Some item | _ => None end) l.

(** *** The registry *)

(** [self.modules[id] = module] on the [OrderedDict]: the module of an
    id that is present is replaced in place, a new id is added at the
    end.  ([append] also assigns the corrector to [module.parent], an
    attribute that no code reads.) *)
Fixpoint set_module (ms : list (string * Mod.t)) (id : string)
    (module : Mod.t) : list (string * Mod.t) :=
  match ms with
  | [] => [(id, module)]
  | (k, old) :: rest =>
      if decide (k = id) then (k, module) :: rest
      else (k, old) :: set_module rest id module
  end.

Definition append (self : t) (id : string) (module : Mod.t) : t :=
  {| settings := settings self;
     modules := set_module (modules self) id module;
     loadbalancemaster := loadbalancemaster self;
     units := units self |}.

(** [__len__] *)
Definition len (self : t) : nat := length (modules self).

(** [self.modules[id]] *)
Fixpoint get_module (ms : list (string * Mod.t)) (id : string)
  : res Mod.t :=
  match ms with
  | [] => Raise (KeyError id)
  | (k, module) :: rest =>
      if decide (k = id) then Ok module else get_module rest id
  end.

(** [train(id)] returns [self.modules[id]]; without an argument [id] is
    [None], which is no key of the registry. *)
Definition train (self : t) (id : option string) : res Mod.t :=
  match id with
  | Some id => get_module (modules self) id
  | None => Raise (KeyError "None")
  end.

End Corrector.

(** ** class LexiconModule (gecco/modules/lexicon.py) *)

Module LexiconModule.

(** The list [findclosest] builds: pairs of a lexicon entry and its
    distance to the word. *)
Definition Results : Type := list (string * Z).

(** What [findclosest] returns: [False] or a list of results. *)
Inductive Found : Type :=
| NoSuggestions
| Suggestions (results : Results).

(** [if results:] *)
Definition truthy (f : Found) : bool :=
  match f with
  | NoSuggestions => false
  | Suggestions [] => false
  | Suggestions (_ :: _) => true
  end.

(** A module object: the attributes of [Module], and the two attributes
    that only [load] assigns, which an object has not got before:
    [lexicon], the dictionary from word to frequency, and [_cache], the
    [OrderedDict] from word to results, both in insertion order. *)
Record t : Type := {
  base : Mod.t;
  lexicon : option (list (string * Z));
  _cache : option (list (string * Results))
}.

(** The object that [__init__] leaves, with [base] what [verifysettings]
    has made of the settings: neither method assigns [lexicon] or
    [_cache]. *)
Definition created (base : Mod.t) : t :=
  {| base := base; lexicon := None; _cache := None |}.

(** [key in d] and [d[key]] for these dictionaries. *)
Definition contains {V} (d : list (string * V)) (key : string) : bool :=
  bool_decide (key ∈ map fst d).

Fixpoint lookup_item {V} (d : list (string * V)) (key : string) : option V :=
  match d with
  | [] => None
  | (k, v) :: rest => if decide (k = key) then Some v else lookup_item rest key
  end.

(** [d[key] = v]: replaces the value of a key that is present, appends
    a new key at the end. *)
Fixpoint setitem {V} (d : list (string * V)) (key : string) (v : V)
  : list (string * V) :=
  match d with
  | [] => [(key, v)]
  | (k, old) :: rest =>
      if decide (k = key) then (k, v) :: rest
      else (k, old) :: setitem rest key v
  end.

(** A setting in a comparison with an integer; [True] and [False] are
    the integers 1 and 0. *)
Definition int_setting (key : string) (self : t) : res Z :=
  let? v := Mod.getitem key (Mod.settings (base self)) in
  match v with
  | SInt z => Ok z
  | SBool b => Ok (if b then 1 else 0)%Z
  | _ => Raise (TypeError key)
  end.

Definition strs_setting (key : string) (self : t) : res (list string) :=
  let? v := Mod.getitem key (Mod.settings (base self)) in
  match v with
  | SStrs l => Ok l
  | _ => Raise (TypeError key)
  end.

(** [word.endswith(suffix)] *)
Definition endswith (word suffix : string) : bool :=
  let n := String.length word in
  let k := String.length suffix in
  (k <=? n)%nat && bool_decide (String.substring (n - k) k word = suffix).

(** [word[:-k]]; [word[:-0]] is [word[:0]], the empty string. *)
Definition drop_last (k : nat) (word : string) : string :=
  match k with
  | O => ""
  | S _ => String.substring 0 (String.length word - k) word
  end.

(** [word[k:]] *)
Definition drop_first (k : nat) (word : string) : string :=
  String.substring k (String.length word - k) word.

(** [len(d) == v] for a setting [v]: an integer is compared by value,
    [True] and [False] are 1 and 0, and a value of another type is not
    equal to a number. *)
Definition len_equals (n : nat) (v : Setting) : bool :=
  match v with
  | SInt z => (Z.of_nat n =? z)%Z
  | SBool b => (Z.of_nat n =? (if b then 1 else 0))%Z
  | _ => false
  end.

(** [d.popitem(False)]: the oldest entry leaves; on an empty dictionary
    it is a [KeyError]. *)
Definition popitem_first {V} (d : list (string * V))
  : res (list (string * V)) :=
  match d with
  | [] => Raise (KeyError "dictionary is empty")
  | _ :: rest => Ok rest
  end.

(** [cache(word, results)] *)
Definition cache (word : string) (results : Results) : eff t unit :=
  fun self =>
    (let* c := lift (attr "_cache" (_cache self)) in
     let* cachesize :=
       lift (Mod.getitem "cachesize" (Mod.settings (base self))) in
     let* c :=
       if len_equals (length c) cachesize then lift (popitem_first c)
       else ret c in
     fun self =>
       Returns tt {| base := base self; lexicon := lexicon self;
                     _cache := Some (setitem c word results) |}) self.

Section Levenshtein.

(** [pynlpl.statistics.levenshtein(word, key, maxdistance)] *)
Variable levenshtein : string -> string -> Z -> Z.

(** [for key, freq in self.lexicon:] iterates over the keys of the
    dictionary and unpacks each key, a string, into two names: a
    key of two characters gives two one-character strings, any
    other key is a [ValueError].  [self.results] is an attribute
    that is assigned nowhere. *)
Fixpoint scan_lexicon (self : t) (word : string)
    (entries : list (string * Z)) (results : Results) : res Results :=
  match entries with
  | [] => Ok results
  | (entry, _) :: rest =>
      match entry with
      | String a (String b EmptyString) =>
          let key := String a EmptyString in
          let? maxdistance := int_setting "maxdistance" self in
          let ld := levenshtein word key maxdistance in
          let? maxdistance := int_setting "maxdistance" self in
          if (ld <=? maxdistance)%Z then
            let? _ := (attr "results" None : res unit) in
            scan_lexicon self word rest results
          else scan_lexicon self word rest results
      | _ => Raise ValueError
      end
  end.

(** [results.sort(key=...)[:n]]: [sort] returns [None], and [None]
    has no slices. *)
Definition sort_and_slice (self : t) (results : Results) : res Results :=
  let? _ := int_setting "maxnrclosest" self in
  Raise (TypeError "'NoneType' object is not subscriptable").

(** The branches of [findclosest] after the test of the cache, from
    line 89 on; [self.lexicon] is read first on line 92, and nothing
    in between the later reads assigns or deletes the attribute. *)
Definition findclosest_uncached (word : string) : eff t Found :=
  fun self =>
    let l := Z.of_nat (String.length word) in
    (let* minlength := lift (int_setting "minlength" self) in
     let* outside :=
       if (l <? minlength)%Z then ret true
       else
         let* maxlength := lift (int_setting "maxlength" self) in
         ret (maxlength <? l)%Z in
     if (outside : bool) then ret NoSuggestions
     else
       let* lexicon := lift (attr "lexicon" (lexicon self)) in
       if contains lexicon word then ret NoSuggestions
       else
         let* suffixes := lift (strs_setting "suffixes" self) in
         if existsb (fun suffix =>
                       endswith word suffix
                       && contains lexicon
                            (drop_last (String.length suffix) word))
                    suffixes
         then ret NoSuggestions
         else
           let* prefixes := lift (strs_setting "prefixes" self) in
           if existsb (fun prefix =>
                         endswith word prefix
                         && contains lexicon
                              (drop_first (String.length prefix) word))
                      prefixes
           then ret NoSuggestions
           else
             let* results := lift (scan_lexicon self word lexicon []) in
             let* results := lift (sort_and_slice self results) in
             let* cachesize := lift (int_setting "cachesize" self) in
             let* _ :=
               if (0 <? cachesize)%Z then cache word results
               else ret tt in
             ret (Suggestions results)) self.

(** Line 87 reads [self._cache] before anything else. *)
Definition findclosest (word : string) : eff t Found :=
  fun self =>
    match attr "_cache" (_cache self) with
    | Raise e => Raises e self
    | Ok c =>
        if negb (bool_decide (c = [])) && contains c word then
          match lookup_item c word with
          | Some results => Returns (Suggestions results) self
          | None => Raises (KeyError word) self
          end
        else findclosest_uncached word self
    end.

(** [run(word, lock)] works on the module object and on the shared
    lock and document. *)
Definition run (G : Globals) (word : FoliaWord)
  : eff (t * Shared) unit :=
  let wordstr := word_text word in
  let* results :=
    zoom fst (fun self w => (self, snd w)) (findclosest wordstr) in
  if truthy results then
    let suggestions :=
      match results with
      | Suggestions l => map fst l
      | NoSuggestions => []
      end in
    fun w =>
      zoom snd (fun sh w => (fst w, sh))
        (Mod.addwordsuggestions G (base (fst w)) word suggestions None) w
  else ret tt.

End Levenshtein.

(** *** verifysettings, runclient and server_handler *)

(** [str.lower()], here on the letters A to Z. *)
Definition lower_ascii (c : Ascii.ascii) : Ascii.ascii :=
  let n := Ascii.nat_of_ascii c in
  if (65 <=? n)%nat && (n <=? 90)%nat then Ascii.ascii_of_nat (n + 32) else c.

Fixpoint lower (s : string) : string :=
  match s with
  | EmptyString => EmptyString
  | String c rest => String (lower_ascii c) (lower rest)
  end.

(** The tab character. *)
Definition tab : string := String (Ascii.ascii_of_nat 9) EmptyString.

(** [if not d[key]: d[key] = v] *)
Definition default_if_falsy (key : string) (v : Setting)
    (d : gmap string Setting) : res (gmap string Setting) :=
  let? old := Mod.getitem key d in
  Ok (if Mod.truthy old then d else <[key := v]> d).

(** The first statement of [verifysettings] after the call of the base
    class: the delimiter. *)
Definition delimiter_setting (d : gmap string Setting)
  : res (gmap string Setting) :=
  match d !! "delimiter" with
  | None => Ok (<["delimiter" := SStr tab]> d)
  | Some (SStr s) =>
      if bool_decide (lower s = "space") then Ok (<["delimiter" := SStr " "]> d)
      else if bool_decide (lower s = "tab")
           then Ok (<["delimiter" := SStr tab]> d)
           else Ok d
  | Some _ => Raise (AttributeError "lower")
  end.

Definition verifysettings (self : Mod.t) : res Mod.t :=
  let self := Mod.verifysettings self in
  let? d := delimiter_setting (Mod.settings self) in
  let d := Mod.setdefault "reversedformat" (SBool false) d in
  let? d := default_if_falsy "maxdistance" (SInt 2) d in
  let? d := default_if_falsy "medld" (SInt 1) d in
  let? d := default_if_falsy "maxlength" (SInt 15) d in
  let? d := default_if_falsy "minlength" (SInt 5) d in
  let? d := default_if_falsy "minfreqthreshold" (SInt 10000) d in
  let? d := default_if_falsy "maxnrclosest" (SInt 5) d in
  let? d := default_if_falsy "cachesize" (SInt 1000) d in
  let? d := default_if_falsy "suffixes" (SStrs []) d in
  let? d := default_if_falsy "prefixes" (SStrs []) d in
  Ok {| Mod.id := Mod.id self; Mod.class_name := Mod.class_name self;
        Mod.UNIT := Mod.UNIT self; Mod.settings := d;
        Mod.local := Mod.local self; Mod.sources := Mod.sources self;
        Mod.models := Mod.models self; Mod.doc := Mod.doc self |}.

(** The settings [verifysettings] reads with [self.settings[key]]. *)
Definition required_settings : list string :=
  ["maxdistance"; "medld"; "maxlength"; "minlength"; "minfreqthreshold";
   "maxnrclosest"; "cachesize"; "suffixes"; "prefixes"].

(** [LexiconModule(id, **settings)]: [Module.__init__] stores the id and
    the settings and calls [verifysettings], the one of this class. *)
Definition init_ (id : string) (settings : gmap string Setting) : res t :=
  let? base :=
    verifysettings
      {| Mod.id := id; Mod.class_name := "LexiconModule"; Mod.UNIT := Word;
         Mod.settings := settings; Mod.local := false; Mod.sources := None;
         Mod.models := None; Mod.doc := None |} in
  Ok (created base).

(** *** load *)

(** The global names that [load] reads: [lexicon.py] imports [sys],
    [os], [json], [folia], [levenshtein] and [Module], and binds no
    other name at the top of the file. *)
Record Names : Type := {
  n_collections : option unit
}.

Definition lexicon_names : Names := {| n_collections := None |}.

Section Load.

(** The loop over the model files (lines 64 to 82): it reads the files
    and assigns to the entries of [self.lexicon]. *)
Variable read_models : Setting -> eff t unit.

Definition load (N : Names) : eff t unit :=
  let* _ :=
    (fun self =>
       Returns tt {| base := base self; lexicon := Some [];
                     _cache := _cache self |}) in
  let* _ := lift (global "collections" (n_collections N)) in
  let* _ :=
    (fun self =>
       Returns tt {| base := base self; lexicon := lexicon self;
                     _cache := Some [] |}) in
  let* models :=
    (fun self => lift (attr "models" (Mod.models (base self))) self) in
  if negb (Mod.truthy models)
  then raise (Exception "Specify one or more models to load!")
  else read_models models.

(** A new object after one call of [load] in the namespace of
    [lexicon.py], whether the call returned or raised. *)
Definition loaded (base : Mod.t) : t :=
  final (load lexicon_names (created base)).

End Load.

Section Wire.

(** [pynlpl.statistics.levenshtein], and [json.dumps] and [json.loads]
    on the values that go over the wire ([json.dumps(False)] is
    ["false"]). *)
Variable levenshtein : string -> string -> Z -> Z.
Variable dumps : Results -> string.
Variable loads : string -> res Found.

Definition server_handler (word : string) : eff t string :=
  let* found := findclosest levenshtein word in
  ret (match found with
       | NoSuggestions => "false"
       | Suggestions results => dumps results
       end).

(** [json.loads(client.communicate(wordstr))]: [json.loads(None)] is a
    [TypeError]. *)
Definition loads_answer (answer : option string) : res Found :=
  match answer with
  | Some s => loads s
  | None => Raise (TypeError "the JSON object must be str, bytes or bytearray, not NoneType")
  end.

(** [runclient(client, word, lock)] works on the client and on the
    shared lock and document. *)
Definition runclient (fuel : nat) (G : Globals) (self : t)
    (word : FoliaWord) : eff (LineByLineClient.t * Shared) unit :=
  let wordstr := word_text word in
  let* answer :=
    zoom fst (fun c w => (c, snd w))
      (LineByLineClient.communicate fuel G wordstr) in
  let* results := lift (loads_answer answer) in
  if truthy results then
    let suggestions :=
      match results with
      | Suggestions l => map fst l
      | NoSuggestions => []
      end in
    zoom snd (fun sh w => (fst w, sh))
      (Mod.addwordsuggestions G (base self) word suggestions None)
  else ret tt.

End Wire.

End LexiconModule.

(** ** How a call of an editing method ends *)

(** How a call of an editing method on a free lock can end: it returns
    with the lock free again and one edit made between [acquire] and
    [release]; or it raises with the lock still held and no edit made. *)
Definition edit_call_ends (before : Shared) (o : outcome Shared unit) : Prop :=
  match o with
  | Returns _ after =>
      lock_held after = false
      /\ exists logged e,
           events after
           = events before ++ logged ++ [EvAcquire; EvEdit e; EvRelease]
           /\ edits_of logged = []
  | Raises _ after =>
      lock_held after = true
      /\ edits_of (events after) = edits_of (events before)
  | Blocks _ => False
  | OutOfFuel _ => False
  end.

(** ** The actions of Corrector.run in closed form *)

(** The loop [for module in self: if module.UNIT is kind: queue.put(...)]
    for one unit. *)
Definition put_actions (kind : UnitKind) (data : Data) (ms : list Mod.t)
  : list Action :=
  flat_map (fun module => if decide (Mod.UNIT module = kind)
                          then [APut (module, data)] else []) ms.

Definition init_actions (self : Corrector.t) : list Action :=
  ALog "Initialising modules on document"
    :: map AInit (Corrector.iter self) ++ [ALog "Initialising threads"].

(** The two parts of [run] between [queue = Queue()] and
    [queue.join()]. *)
Definition document_part (self : Corrector.t) (foliadoc : FoliaDoc)
    (units : list UnitKind) : list Action :=
  if decide (Document ∈ units)
  then ALog "Queuing modules handling documents"
         :: put_actions Document (WholeDocument (doc_id foliadoc))
              (Corrector.iter self)
  else [].

Definition element_part (self : Corrector.t) (foliadoc : FoliaDoc)
    (units : list UnitKind) : list Action :=
  flat_map (fun kind =>
       if decide (kind = Document) then []
       else ALog "Queuing modules handling elements"
              :: flat_map (fun data =>
                             put_actions kind data (Corrector.iter self))
                          (select foliadoc kind))
       units.

Definition queue_actions (self : Corrector.t) (foliadoc : FoliaDoc)
    (units : list UnitKind) : list Action :=
  document_part self foliadoc units ++ element_part self foliadoc units.

Definition final_actions (self : Corrector.t) : list Action :=
  [ALog "Processing all modules...."; AJoin;
   ALog "Finalising modules on document"]
  ++ map AFinish (Corrector.iter self)
  ++ [ALog "Processing all modules...."; ASave].

(** A computation that returns after it has added the actions [l]. *)
Definition emits (m : eff (list Action) unit) (l : list Action) : Prop :=
  forall done, m done = Returns tt (done ++ l).

(** Actions that may come before the barrier, and after it. *)
Definition is_before (a : Action) : bool :=
  match a with
  | APut _ | ALog _ | AInit _ | AStart | ARaise _ => true
  | AJoin | AStop | AFinish _ | ASave => false
  end.

Definition is_after (a : Action) : bool :=
  match a with
  | AStop | AFinish _ | ASave | ALog _ | AInit _ | AStart | ARaise _ => true
  | APut _ | AJoin => false
  end.

(** The order of a list of actions around the barrier: every [put]
    comes before the one [join], and stopping a thread, finishing a
    module and saving the document come after it.  [joined] tells
    whether the [join] lies before the list. *)
Fixpoint ordered (joined : bool) (l : list Action) : bool :=
  match l with
  | [] => true
  | APut _ :: rest => negb joined && ordered joined rest
  | AJoin :: rest => negb joined && ordered true rest
  | (AStop | AFinish _ | ASave) :: rest => joined && ordered joined rest
  | (ALog _ | AInit _ | AStart | ARaise _) :: rest => ordered joined rest
  end.



(** What a completed call of [LexiconModule.verifysettings] tells about a
    required key: the caller gave it a value, and the settings hold that
    value if it is true and the default if it is false. *)
Definition setting_verified (self m : Mod.t) (key : string)
    (default : Setting) : Prop :=
  exists old,
    Mod.settings self !! key = Some old
    /\ Mod.settings m !! key = Some (if Mod.truthy old then old else default).

(** The unit a module is to receive from a document: the document
    itself when the module's [UNIT] is [folia.Document], else an element
    of the module's [UNIT] that the document contains. *)
Definition unit_for (foliadoc : FoliaDoc) (module : Mod.t) (data : Data)
  : Prop :=
  match data with
  | WholeDocument i => Mod.UNIT module = Document /\ i = doc_id foliadoc
  | Element kind e =>
      kind = Mod.UNIT module /\ kind <> Document
      /\ (kind, e) ∈ elements foliadoc
  end.

(** The lock and document after the [run] methods of the modules of a
    list of items have been called one after the other. *)
Definition run_in_turn (module_run : Mod.t -> Data -> eff Shared unit)
    (items : list (Mod.t * Data)) (sh : Shared) : Shared :=
  foldl (fun sh item => final (module_run (fst item) (snd item) sh)) sh items.
(** * Objects used as examples *)

(** A module configured with an endpoint, and one configured with none. *)
Definition remote_settings : gmap string Setting :=
  {[ "servers" := SServers [("localhost", 9000%Z)] ]}.

Definition module_with_endpoint : Mod.t :=
  Mod.init_ "Module" Document "m" remote_settings.

Definition module_without_endpoint : Mod.t :=
  Mod.init_ "Module" Document "m" ∅.

(** A module object that is not local and has one endpoint: a module
    created without ['servers'] whose settings then receive the key. *)
Definition single_endpoint_module : Mod.t :=
  let m := Mod.init_ "Module" Word "m" ∅ in
  {| Mod.id := Mod.id m; Mod.class_name := Mod.class_name m;
     Mod.UNIT := Mod.UNIT m;
     Mod.settings := <["servers" := SServers [("localhost", 9000%Z)]]>
                       (Mod.settings m);
     Mod.local := Mod.local m; Mod.sources := Mod.sources m;
     Mod.models := Mod.models m; Mod.doc := Mod.doc m |}.


(** A connection on which the peer answers every request by the request
    itself, seen from a client that sends ["hello"]. *)
Definition echo_stream : Stream :=
  {| incoming := [encode "hello" ++ newline]; peer_closed := false;
     sent := [] |}.

Definition fresh_client : LineByLineClient.t :=
  LineByLineClient.init_ "localhost" 9000 echo_stream.

(** A connection that carries two requests, seen from the server. *)
Definition two_requests : Stream :=
  {| incoming := [encode "a" ++ newline; encode "b" ++ newline];
     peer_closed := true; sent := [] |}.

(** The identity function as a module's [server_handler]. *)
Definition identity_handler (msg : string) : res string := Ok msg.

(** Settings of a lexicon module with the default lengths of
    [verifysettings]. *)
Definition lexicon_settings : gmap string Setting :=
  <["maxdistance" := SInt 2]> (<["minlength" := SInt 5]>
  (<["maxlength" := SInt 15]> (<["maxnrclosest" := SInt 5]>
  (<["cachesize" := SInt 1000]> (<["suffixes" := SStrs []]>
  (<["prefixes" := SStrs []]> ∅)))))).

(** A module object with a lexicon of three words and an empty cache. *)
Definition example_lexicon_module : LexiconModule.t :=
  {| LexiconModule.base := Mod.init_ "LexiconModule" Word "lexicon"
                             lexicon_settings;
     LexiconModule.lexicon :=
       Some [("correction", 20000%Z); ("document", 15000%Z); ("it", 90000%Z)];
     LexiconModule._cache := Some [] |}.

(** The settings of a configuration that gives every key that
    [LexiconModule.verifysettings] reads, and a model file. *)
Definition nine_settings : gmap string Setting :=
  <["medld" := SInt 1]> (<["minfreqthreshold" := SInt 10000]>
  (<["model" := SStr "lexicon.txt"]> lexicon_settings)).

(** Model files without lines. *)
Definition empty_files (models : Setting) : eff LexiconModule.t unit :=
  ret tt.

(** [LexiconModule("lexicon", **nine_settings)], and that object after
    a call of [load]. *)
Definition new_lexicon_module : LexiconModule.t :=
  match LexiconModule.init_ "lexicon" nine_settings with
  | Ok self => self
  | Raise _ =>
      LexiconModule.created
        (Mod.init_ "LexiconModule" Word "lexicon" nine_settings)
  end.

Definition loaded_lexicon_module : LexiconModule.t :=
  final (LexiconModule.load empty_files LexiconModule.lexicon_names
           new_lexicon_module).

(** A word shorter than the [minlength] of [nine_settings]. *)
Definition word_it : FoliaWord :=
  {| word_id := "d.s.1.w.3"; word_text := "it";
     word_sentence := Some "d.s.1" |}.

(** The namespace of [lexicon.py] with [collections] imported. *)
Definition names_with_collections : LexiconModule.Names :=
  {| LexiconModule.n_collections := Some tt |}.

(** A distance function to run the examples with: its value is not
    used on the paths the examples take. *)
Definition constant_distance (a b : string) (maxdistance : Z) : Z := 0%Z.

Definition word_document : FoliaWord :=
  {| word_id := "d.s.1.w.1"; word_text := "document";
     word_sentence := Some "d.s.1" |}.

Definition word_documant : FoliaWord :=
  {| word_id := "d.s.1.w.2"; word_text := "documant";
     word_sentence := Some "d.s.1" |}.

Definition free_lock : Shared := {| lock_held := false; events := [] |}.

(** Two modules whose [local] attribute is [True]: an instance of the
    base class, whose [run] is not implemented, and an instance of a
    class whose [run] writes a line to the log. *)
Definition local_module (name : string) : Mod.t :=
  {| Mod.id := name; Mod.class_name := "Module"; Mod.UNIT := Word;
     Mod.settings := ∅; Mod.local := true; Mod.sources := None;
     Mod.models := None; Mod.doc := None |}.

Definition example_run (module : Mod.t) (data : Data) : eff Shared unit :=
  if decide (Mod.id module = "base") then Mod.run module data
  else Mod.log ("run " +:+ Mod.id module).

Definition example_runclient (module : Mod.t) (client : ClientObj)
    (data : Data) : eff Shared unit :=
  Mod.log ("runclient " +:+ Mod.id module).

Definition no_balancer : LoadBalanceMaster :=
  {| availableservers := []; minpollinterval := 30 |}.

(** A worker in front of a queue of two items, the first for the module
    whose [run] raises. *)
Definition two_items : list (Mod.t * Data) :=
  [(local_module "base", Element Word "w1");
   (local_module "logging", Element Word "w2")].

Definition worker_two_items : ProcessorThread.t :=
  ProcessorThread.init_ two_items 2 free_lock no_balancer [].

(** A worker in front of one item for a remote module with the single
    endpoint [("localhost", 9000)]. *)
Definition worker_remote_item : ProcessorThread.t :=
  ProcessorThread.init_ [(single_endpoint_module, Element Word "w1")] 1
    free_lock no_balancer [].

(** Namespaces in which [q], or [q] and [host], are bound as well. *)
Definition globals_with_q : Globals :=
  {| g_q := Some DispatchQueue; g_host := None; g_port := None;
     g_units := None; g_loadbalancemaster := None; g_suggestion := None;
     g_datetime := None |}.

Definition globals_with_q_host : Globals :=
  {| g_q := Some DispatchQueue; g_host := Some "elsewhere"; g_port := None;
     g_units := None; g_loadbalancemaster := None; g_suggestion := None;
     g_datetime := None |}.

(** A corrector with one module for words, and a document of two
    words. *)
Definition word_corrector (threads : Z) : Corrector.t :=
  {| Corrector.settings := {[ "threads" := SInt threads ]};
     Corrector.modules := [("logging", local_module "logging")];
     Corrector.loadbalancemaster := no_balancer;
     Corrector.units := [] |}.

Definition two_word_document : FoliaDoc :=
  {| doc_id := "d";
     elements := [(Sentence, "d.s.1"); (Word, "d.s.1.w.1");
                  (Word, "d.s.1.w.2")] |}.

(** A namespace in which [units] is bound to the set of the module's
    unit. *)
Definition globals_with_units : Globals :=
  {| g_q := None; g_host := None; g_port := None;
     g_units := Some [Word]; g_loadbalancemaster := None;
     g_suggestion := None; g_datetime := None |}.

(** A namespace in which the names the editing methods read are bound,
    and a module with the settings [verifysettings] leaves. *)
Definition globals_for_editing : Globals :=
  {| g_q := None; g_host := None; g_port := None; g_units := None;
     g_loadbalancemaster := None; g_suggestion := Some ["document"];
     g_datetime := Some 0%Z |}.

Definition editing_module : Mod.t :=
  let m := Mod.init_ "Module" Word "m" ∅ in
  {| Mod.id := Mod.id m; Mod.class_name := Mod.class_name m;
     Mod.UNIT := Mod.UNIT m; Mod.settings := Mod.settings m;
     Mod.local := Mod.local m; Mod.sources := Mod.sources m;
     Mod.models := Mod.models m; Mod.doc := Some "d" |}.

Definition held_lock : Shared := {| lock_held := true; events := [] |}.

(** A module whose setting [cachesize] is 2, loaded in a namespace that
    binds [collections], after [cache] has been called for two words:
    its cache is full. *)
Definition small_cache_module : LexiconModule.t :=
  match LexiconModule.init_ "lexicon" (<["cachesize" := SInt 2]> nine_settings)
  with
  | Ok self => self
  | Raise _ =>
      LexiconModule.created
        (Mod.init_ "LexiconModule" Word "lexicon" nine_settings)
  end.

Definition full_cache_module : LexiconModule.t :=
  final (LexiconModule.cache "corection" [("correction", 1%Z)]
    (final (LexiconModule.cache "documant" [("document", 1%Z)]
      (final (LexiconModule.load empty_files names_with_collections
                small_cache_module))))).

(** Settings for a lexicon module in which every required key is given
    and [cachesize] and [maxdistance] are zero. *)
Definition zero_settings : gmap string Setting :=
  <["maxdistance" := SInt 0]> (<["medld" := SInt 1]>
  (<["minlength" := SInt 3]> (<["maxlength" := SInt 10]>
  (<["minfreqthreshold" := SInt 5]> (<["maxnrclosest" := SInt 5]>
  (<["cachesize" := SInt 0]> (<["suffixes" := SStrs ["s"]]>
  (<["prefixes" := SStrs []]> ∅)))))))).

Definition zero_settings_module : Mod.t :=
  {| Mod.id := "lexicon"; Mod.class_name := "LexiconModule"; Mod.UNIT := Word;
     Mod.settings := zero_settings; Mod.local := false; Mod.sources := None;
     Mod.models := None; Mod.doc := None |}.

Definition zero_settings_verified : Mod.t :=
  match LexiconModule.verifysettings zero_settings_module with
  | Ok m => m
  | Raise _ => zero_settings_module
  end.

(** A [run] that returns for every module, and a worker in front of two
    items of local modules. *)
Definition logging_run (module : Mod.t) (data : Data) : eff Shared unit :=
  Mod.log ("run " +:+ Mod.id module).

Definition worker_two_logging : ProcessorThread.t :=
  ProcessorThread.init_
    [(local_module "first", Element Word "w1");
     (local_module "second", Element Word "w2")] 2
    free_lock no_balancer [].

(** A connected client whose attribute [sock] has been assigned. *)
Definition client_with_sock : LineByLineClient.t :=
  {| LineByLineClient.connected := true; LineByLineClient.sock := Some tt;
     LineByLineClient.peer := Some ("localhost", 9000%Z);
     LineByLineClient.stream := echo_stream |}.

(** ["hello"] followed by a newline. *)
Definition hello_line : string :=
  "hello" +:+ String (Ascii.ascii_of_nat 10) EmptyString.

(** A remote module with two endpoints, a namespace that binds
    [loadbalancemaster], and a worker whose cache holds a client for
    [("localhost", 9000)]. *)
Definition two_endpoint_module : Mod.t :=
  {| Mod.id := "m"; Mod.class_name := "Module"; Mod.UNIT := Word;
     Mod.settings :=
       {[ "servers" := SServers [("alpha", 9000%Z); ("beta", 9000%Z)] ]};
     Mod.local := false; Mod.sources := None; Mod.models := None;
     Mod.doc := None |}.

Definition globals_with_balancer : Globals :=
  {| g_q := Some DispatchQueue; g_host := Some "elsewhere"; g_port := None;
     g_units := None; g_loadbalancemaster := Some no_balancer;
     g_suggestion := None; g_datetime := None |}.

Definition cached_client_obj : ClientObj :=
  {| client_no := 0; client_args := ("localhost", 9000%Z) |}.

Definition worker_with_client : ProcessorThread.t :=
  {| ProcessorThread.stop := false;
     ProcessorThread.loadbalancemaster := no_balancer;
     ProcessorThread.clients := {[ ("localhost", 9000%Z) := cached_client_obj ]};
     ProcessorThread.constructed := 1;
     ProcessorThread.queue := [];
     ProcessorThread.unfinished := 1;
     ProcessorThread.shared := free_lock;
     ProcessorThread.lblog := [] |}.
(** * Properties *)

(** ** Module.verifysettings and Module.findserver *)

Lemma verifysettings_local (self : Mod.t) :
  Mod.local (Mod.verifysettings self) = true
  <-> is_Some (Mod.settings self !! "servers").
Proof.
  unfold Mod.verifysettings; simpl. apply bool_decide_eq_true.
Qed.

Lemma setdefault_lookup_ne (key key' : string) (v : Setting)
    (d : gmap string Setting) :
  key <> key' -> Mod.setdefault key v d !! key' = d !! key'.
Proof.
  intros Hne. unfold Mod.setdefault.
  destruct (d !! key); [done|]. by rewrite lookup_insert_ne.
Qed.

Lemma verifysettings_servers (self : Mod.t) :
  Mod.servers (Mod.verifysettings self) = Mod.servers self.
Proof.
  unfold Mod.servers, Mod.verifysettings; simpl.
  by rewrite !setdefault_lookup_ne.
Qed.

(** C4: after settings verification, [isLocal] should hold exactly when
    the module has no candidate endpoint.  [verifysettings] assigns
    ['servers' in self.settings] to [local], the opposite: the module
    configured with the endpoint [("localhost", 9000)] is local, and the
    module configured with no endpoint is not. *)
Theorem C4_verifysettings_inverts_local :
  (Mod.local module_with_endpoint = true
   /\ Mod.servers module_with_endpoint = [("localhost", 9000%Z)])
  /\ (Mod.local module_without_endpoint = false
      /\ Mod.servers module_without_endpoint = []).
Proof.
  unfold module_with_endpoint, module_without_endpoint, Mod.init_.
  rewrite !verifysettings_servers.
  repeat split; vm_compute; reflexivity.
Qed.

Lemma findserver_one_endpoint (G : Globals) (self : Mod.t)
    (loadbalanceserver : LoadBalanceMaster) (e : Endpoint) (log : LBLog) :
  Mod.local self = false ->
  Mod.settings self !! "servers" = Some (SServers [e]) ->
  Mod.findserver G self loadbalanceserver log = Returns (Some e) log.
Proof.
  intros Hlocal Hservers.
  unfold Mod.findserver, Mod.servers_setting, Mod.getitem.
  rewrite Hlocal, Hservers. reflexivity.
Qed.

(** C5: for a module that is not local and whose list of candidate
    endpoints has exactly one entry, [findserver] returns that entry, and
    the record of calls to the load balancer is what it was before: no
    request went to it. *)
Theorem C5_findserver_single_endpoint (G : Globals) (self : Mod.t)
    (loadbalanceserver : LoadBalanceMaster) (e : Endpoint) (log : LBLog) :
  Mod.local self = false ->
  Mod.servers self = [e] ->
  Mod.findserver G self loadbalanceserver log = Returns (Some e) log.
Proof.
  intros Hlocal Hservers. apply findserver_one_endpoint; [exact Hlocal|].
  unfold Mod.servers in Hservers.
  destruct (Mod.settings self !! "servers") as [[]|]; congruence.
Qed.

Lemma C5_findserver_single_endpoint_witness :
  Mod.findserver gecco_globals single_endpoint_module
    {| availableservers := []; minpollinterval := 30 |} []
  = Returns (Some ("localhost", 9000%Z)) [].
Proof.
  apply (C5_findserver_single_endpoint gecco_globals single_endpoint_module
           {| availableservers := []; minpollinterval := 30 |}
           ("localhost", 9000%Z) []).
  - reflexivity.
  - reflexivity.
Defined.

(** With another number of endpoints the code reads the global name
    [loadbalancemaster]; the parameter is called [loadbalanceserver]. *)
Lemma findserver_several_endpoints (self : Mod.t)
    (loadbalanceserver : LoadBalanceMaster) (l : list Endpoint) (log : LBLog) :
  Mod.local self = false ->
  Mod.settings self !! "servers" = Some (SServers l) ->
  length l <> 1 ->
  Mod.findserver gecco_globals self loadbalanceserver log
  = Raises (NameError "loadbalancemaster") log.
Proof.
  intros Hlocal Hservers Hlen.
  unfold Mod.findserver, Mod.servers_setting, Mod.getitem.
  rewrite Hlocal, Hservers. unfold seq, lift; simpl.
  destruct (Nat.eqb_spec (length l) 1); [done|reflexivity].
Qed.

(** ** LineByLineClient and LineByLineServerHandler *)

Lemma receive_raises (fuel : nat) (w : LineByLineClient.t) :
  LineByLineClient.receive (S fuel) w = Raises (AttributeError "recv") w.
Proof. reflexivity. Qed.

(** A call of [communicate] that completes returns [None]: the method has
    no [return] statement. *)
Lemma communicate_returns_None (fuel : nat) (G : Globals) (msg : string)
    (w w' : LineByLineClient.t) (answer : option string) :
  LineByLineClient.communicate fuel G msg w = Returns answer w' ->
  answer = None.
Proof.
  unfold LineByLineClient.communicate, seq.
  destruct (LineByLineClient.send G msg w); try discriminate.
  destruct (LineByLineClient.receive fuel w0); try discriminate.
  unfold ret. congruence.
Qed.

(** C3: [communicate(msg)] should return the payload the server sent,
    without its newline.  In the code every call ends in an exception,
    for every message, every state of the client and every binding of
    the global names: [send] reads the attribute [sock] where [__init__]
    assigned [socket], [connect] reads [host] and [port] that [__init__]
    did not keep, and [receive] calls [recv] on the module [socket]. *)
Theorem C3_communicate_raises (fuel : nat) (G : Globals) (msg : string)
    (w : LineByLineClient.t) :
  exists e w', LineByLineClient.communicate (S fuel) G msg w = Raises e w'.
Proof.
  unfold LineByLineClient.communicate, LineByLineClient.send,
    LineByLineClient.connect, seq, lift, global, attr.
  destruct (LineByLineClient.connected w) eqn:Hc.
  - destruct (last_byte (encode msg)); [|eauto].
    destruct (LineByLineClient.sock w); [|eauto].
    unfold LineByLineClient.on_stream, zoom, sendall; cbn beta iota.
    do 2 eexists. rewrite receive_raises. reflexivity.
  - destruct (g_host G); [|eauto].
    destruct (g_port G); [|eauto].
    destruct (last_byte (encode msg)); [|eauto].
    simpl. destruct (LineByLineClient.sock w); eauto.
Qed.

(** The round trip of ["hello"] against an echoing server, with the
    names [gecco.py] binds: nothing is sent. *)
Example communicate_hello :
  LineByLineClient.communicate 8 gecco_globals "hello" fresh_client
  = Raises (NameError "host") fresh_client.
Proof. reflexivity. Qed.

(** C8: the connection handler should answer every request that arrives
    on a connection.  [handle] reads its local variable [buffer] before
    any assignment to it: it raises before it has read a request, and
    writes no response, whatever the connection carries. *)
Theorem C8_handle_raises_before_reading (fuel : nat)
    (server_handler : string -> res string) (conn : Stream) :
  LineByLineServerHandler.handle (S fuel) server_handler conn
  = Raises (UnboundLocalError "buffer") conn.
Proof. reflexivity. Qed.

Example handle_two_requests :
  LineByLineServerHandler.handle 8 identity_handler two_requests
  = Raises (UnboundLocalError "buffer") two_requests
  /\ sent two_requests = [].
Proof. split; reflexivity. Qed.

(** Whatever value the loop starts from, [handle] writes to the
    connection at most once: there is no loop around the exchange. *)
Lemma handle_loop_sends_nothing (fuel : nat) (buffer : option bytes)
    (conn : Stream) :
  sent (final (LineByLineServerHandler.handle_loop fuel buffer conn))
  = sent conn.
Proof.
  revert buffer conn. induction fuel as [|fuel IH]; intros buffer conn.
  - reflexivity.
  - simpl. unfold seq, lift, local_var.
    destruct buffer as [old|]; [|reflexivity].
    unfold recv. destruct (incoming conn) as [|c rest] eqn:Hin.
    + destruct (peer_closed conn); [|reflexivity].
      destruct (last_byte (old ++ [])); [|reflexivity].
      simpl. apply IH.
    + destruct (last_byte (old ++ c)); [|reflexivity].
      simpl. rewrite IH. reflexivity.
Qed.

(** ** The editing methods of Module and the mutation lock *)

Lemma edits_of_app (l1 l2 : list Event) :
  edits_of (l1 ++ l2) = edits_of l1 ++ edits_of l2.
Proof. unfold edits_of. apply omap_app. Qed.

Lemma events_logged (evs logged : list Event) (a b c : Event) :
  (((evs ++ logged) ++ [a]) ++ [b]) ++ [c] = evs ++ logged ++ [a; b; c].
Proof. by rewrite <- !app_assoc. Qed.

Lemma events_unlogged (evs : list Event) (a b c : Event) :
  ((evs ++ [a]) ++ [b]) ++ [c] = evs ++ [] ++ [a; b; c].
Proof. by rewrite <- !app_assoc. Qed.

Lemma edits_after_log (evs : list Event) (msg : string) :
  edits_of ((evs ++ [EvLog msg]) ++ [EvAcquire]) = edits_of evs.
Proof. rewrite !edits_of_app. simpl. by rewrite !app_nil_r. Qed.

Lemma edits_after_acquire (evs : list Event) :
  edits_of (evs ++ [EvAcquire]) = edits_of evs.
Proof. rewrite edits_of_app. simpl. by rewrite app_nil_r. Qed.

Ltac edit_raised :=
  split; [reflexivity|]; first [apply edits_after_log|apply edits_after_acquire].

(** Case distinctions on what the method reads next, in program order. *)
Ltac read_settings self :=
  destruct (Mod.settings self !! "set"); cbn; [|edit_raised];
  destruct (Mod.settings self !! "class"); cbn; [|edit_raised];
  destruct (Mod.settings self !! "annotator"); cbn; [|edit_raised].

Lemma addwordsuggestions_ends (G : Globals) (self : Mod.t) (word : FoliaWord)
    (suggestions : list string) (confidence : option Z) (w : Shared) :
  lock_held w = false ->
  edit_call_ends w (Mod.addwordsuggestions G self word suggestions confidence w).
Proof.
  intros Hfree. destruct w as [held evs]; cbn in Hfree; subst held.
  unfold Mod.addwordsuggestions, Mod.log, Mod.getitem, seq, lift, global,
    emit, acquire, release; cbn.
  destruct (g_suggestion G); cbn; [|edit_raised].
  read_settings self.
  destruct (g_datetime G); cbn; [|edit_raised].
  split; [reflexivity|]. eexists _, _. split; [apply events_logged|reflexivity].
Qed.

Lemma adderrordetection_ends (G : Globals) (self : Mod.t) (word : FoliaWord)
    (w : Shared) :
  lock_held w = false ->
  edit_call_ends w (Mod.adderrordetection G self word w).
Proof.
  intros Hfree. destruct w as [held evs]; cbn in Hfree; subst held.
  unfold Mod.adderrordetection, Mod.log, Mod.getitem, seq, lift, global, attr,
    emit, acquire, release; cbn.
  destruct (Mod.doc self); cbn; [|edit_raised].
  read_settings self.
  destruct (g_datetime G); cbn; [|edit_raised].
  split; [reflexivity|]. eexists _, _. split; [apply events_logged|reflexivity].
Qed.

Lemma splitcorrection_ends (G : Globals) (self : Mod.t) (word : FoliaWord)
    (newwords : list string) (w : Shared) :
  lock_held w = false ->
  edit_call_ends w (Mod.splitcorrection G self word newwords w).
Proof.
  intros Hfree. destruct w as [held evs]; cbn in Hfree; subst held.
  unfold Mod.splitcorrection, Mod.getitem, seq, lift, global, attr,
    emit, acquire, release, ret; cbn.
  destruct newwords as [|first rest]; cbn.
  - destruct (g_datetime G); cbn; [|edit_raised].
    split; [reflexivity|].
    eexists _, _. split; [apply events_unlogged|reflexivity].
  - destruct (Mod.doc self); cbn; [|edit_raised].
    destruct (g_datetime G); cbn; [|edit_raised].
    split; [reflexivity|].
    eexists _, _. split; [apply events_unlogged|reflexivity].
Qed.

Lemma mergecorrection_ends (G : Globals) (self : Mod.t) (newword : string)
    (originalwords : list FoliaWord) (w : Shared) :
  lock_held w = false ->
  edit_call_ends w (Mod.mergecorrection G self newword originalwords w).
Proof.
  intros Hfree. destruct w as [held evs]; cbn in Hfree; subst held.
  unfold Mod.mergecorrection, Mod.getitem, seq, lift, global, attr,
    emit, acquire, release, ret, raise; cbn.
  destruct originalwords as [|first rest]; cbn; [edit_raised|].
  destruct (word_sentence first); cbn; [|edit_raised].
  destruct (Mod.doc self); cbn; [|edit_raised].
  destruct (g_datetime G); cbn; [|edit_raised].
  split; [reflexivity|].
  eexists _, _. split; [apply events_unlogged|reflexivity].
Qed.

(** A call made while the lock is held waits for it: [mergecorrection]
    after an edit that raised never comes back. *)
Lemma mergecorrection_blocks (G : Globals) (self : Mod.t) (newword : string)
    (originalwords : list FoliaWord) (w : Shared) :
  lock_held w = true ->
  Mod.mergecorrection G self newword originalwords w = Blocks w.
Proof.
  intros Hheld. unfold Mod.mergecorrection, seq, acquire.
  rewrite Hheld. reflexivity.
Qed.

(** C7: every structural edit should release the mutation lock right
    after the write.  With the names [gecco.py] binds,
    [addwordsuggestions] acquires the lock and then raises on the name
    [suggestion] (its parameter is [suggestions]): it writes nothing and
    the lock stays held.  [mergecorrection] raises with the lock held
    when the first word is in no sentence, for every binding of the
    global names. *)
Theorem C7_edit_raises_with_lock_held :
  (forall (self : Mod.t) (word : FoliaWord) (suggestions : list string)
          (confidence : option Z) (evs : list Event),
      Mod.addwordsuggestions gecco_globals self word suggestions confidence
        {| lock_held := false; events := evs |}
      = Raises (NameError "suggestion")
          {| lock_held := true;
             events :=
               (evs ++ [EvLog ("Adding correction for " +:+ word_id word
                                 +:+ " " +:+ word_text word)])
               ++ [EvAcquire] |})
  /\ (forall (G : Globals) (self : Mod.t) (newword wid wtext : string)
             (others : list FoliaWord) (evs : list Event),
         Mod.mergecorrection G self newword
           ({| word_id := wid; word_text := wtext; word_sentence := None |}
              :: others)
           {| lock_held := false; events := evs |}
         = Raises (Exception ("Expected sentence for " +:+ wid
                                +:+ ", got None"))
             {| lock_held := true; events := evs ++ [EvAcquire] |}).
Proof. split; reflexivity. Qed.

(** ** LexiconModule.findclosest and LexiconModule.run *)

Lemma sort_and_slice_raises (self : LexiconModule.t)
    (results : LexiconModule.Results) :
  exists e, LexiconModule.sort_and_slice self results = Raise e.
Proof.
  unfold LexiconModule.sort_and_slice.
  destruct (LexiconModule.int_setting "maxnrclosest" self); simpl; eauto.
Qed.

(** After the test of the cache, [findclosest] returns [False] or
    raises, and the module object is as it was: the only statement that
    writes to the cache comes after the slice of the value of
    [results.sort(...)], which raises. *)
Lemma findclosest_uncached_ends (levenshtein : string -> string -> Z -> Z)
    (word : string) (self : LexiconModule.t) :
  LexiconModule.findclosest_uncached levenshtein word self
  = Returns LexiconModule.NoSuggestions self
  \/ exists e,
       LexiconModule.findclosest_uncached levenshtein word self
       = Raises e self.
Proof.
  unfold LexiconModule.findclosest_uncached, seq, lift, ret.
  destruct (LexiconModule.int_setting "minlength" self) as [minl|]; [|eauto].
  destruct (Z.of_nat (String.length word) <? minl)%Z; [auto|].
  destruct (LexiconModule.int_setting "maxlength" self) as [maxl|]; [|eauto].
  destruct (maxl <? Z.of_nat (String.length word))%Z; [auto|].
  destruct (attr "lexicon" (LexiconModule.lexicon self)) as [lex|]; [|eauto].
  destruct (LexiconModule.contains lex word); [auto|].
  destruct (LexiconModule.strs_setting "suffixes" self); [|eauto].
  destruct (existsb _ a); [auto|].
  destruct (LexiconModule.strs_setting "prefixes" self); [|eauto].
  destruct (existsb _ a0); [auto|].
  destruct (LexiconModule.scan_lexicon _ _ _ _ _) as [results|]; [|eauto].
  destruct (sort_and_slice_raises self results) as [e ->]. eauto.
Qed.

(** No call of [findclosest] changes the module object. *)
Lemma findclosest_keeps_state (levenshtein : string -> string -> Z -> Z)
    (word : string) (self : LexiconModule.t) :
  final (LexiconModule.findclosest levenshtein word self) = self.
Proof.
  unfold LexiconModule.findclosest.
  destruct (attr "_cache" (LexiconModule._cache self)) as [c|]; [|reflexivity].
  destruct (negb (bool_decide (c = [])) && LexiconModule.contains c word).
  - destruct (LexiconModule.lookup_item c word); reflexivity.
  - destruct (findclosest_uncached_ends levenshtein word self)
      as [->|[e ->]]; reflexivity.
Qed.

(** On an object that has no attribute [_cache], [findclosest] raises
    on line 87, and so does [run], before it touches the lock or the
    document. *)
Lemma findclosest_without_cache (levenshtein : string -> string -> Z -> Z)
    (word : string) (self : LexiconModule.t) :
  LexiconModule._cache self = None ->
  LexiconModule.findclosest levenshtein word self
  = Raises (AttributeError "_cache") self.
Proof. intros Hnone. unfold LexiconModule.findclosest. by rewrite Hnone. Qed.

Lemma run_without_cache (levenshtein : string -> string -> Z -> Z)
    (G : Globals) (word : FoliaWord) (self : LexiconModule.t) (sh : Shared) :
  LexiconModule._cache self = None ->
  LexiconModule.run levenshtein G word (self, sh)
  = Raises (AttributeError "_cache") (self, sh).
Proof.
  intros Hnone. unfold LexiconModule.run, seq, zoom. simpl.
  by rewrite (findclosest_without_cache levenshtein _ self Hnone).
Qed.

(** With the cache unset or empty, [findclosest] returns [False] or
    raises. *)
Lemma findclosest_unset_or_empty (levenshtein : string -> string -> Z -> Z)
    (word : string) (self : LexiconModule.t) :
  LexiconModule._cache self = None \/ LexiconModule._cache self = Some [] ->
  LexiconModule.findclosest levenshtein word self
  = Returns LexiconModule.NoSuggestions self
  \/ exists e, LexiconModule.findclosest levenshtein word self = Raises e self.
Proof.
  intros [Hnone|Hempty].
  - right. eexists. by apply findclosest_without_cache.
  - unfold LexiconModule.findclosest. rewrite Hempty. simpl.
    apply findclosest_uncached_ends.
Qed.

(** [load] in the namespace of [lexicon.py]: the name [collections] has
    no binding, so the call raises on line 59, after it has assigned
    [lexicon] and before it assigns [_cache]. *)
Lemma load_raises (read_models : Setting -> eff LexiconModule.t unit)
    (self : LexiconModule.t) :
  LexiconModule.load read_models LexiconModule.lexicon_names self
  = Raises (NameError "collections")
      {| LexiconModule.base := LexiconModule.base self;
         LexiconModule.lexicon := Some [];
         LexiconModule._cache := LexiconModule._cache self |}.
Proof. reflexivity. Qed.

(** Lines 87 to 94 on an object whose cache has been assigned and is
    empty: a word that is too short, too long or in the lexicon gives
    [False], and [run] returns without an edit. *)
Lemma findclosest_with_empty_cache
    (levenshtein : string -> string -> Z -> Z) (G : Globals)
    (self : LexiconModule.t) (word : FoliaWord) (sh : Shared)
    (minlength maxlength : Z) (lexicon : list (string * Z)) :
  LexiconModule._cache self = Some [] ->
  LexiconModule.lexicon self = Some lexicon ->
  LexiconModule.int_setting "minlength" self = Ok minlength ->
  LexiconModule.int_setting "maxlength" self = Ok maxlength ->
  LexiconModule.contains lexicon (word_text word) = true
  \/ (Z.of_nat (String.length (word_text word)) < minlength)%Z
  \/ (maxlength < Z.of_nat (String.length (word_text word)))%Z ->
  LexiconModule.findclosest levenshtein (word_text word) self
  = Returns LexiconModule.NoSuggestions self
  /\ LexiconModule.run levenshtein G word (self, sh) = Returns tt (self, sh).
Proof.
  intros Hcache Hlex Hmin Hmax Hcase.
  assert (Hfind : LexiconModule.findclosest levenshtein (word_text word) self
                  = Returns LexiconModule.NoSuggestions self).
  { unfold LexiconModule.findclosest. rewrite Hcache. simpl.
    unfold LexiconModule.findclosest_uncached, seq, lift, ret. rewrite Hmin.
    destruct (Z.ltb_spec (Z.of_nat (String.length (word_text word)))
                minlength) as [Hlt|Hge]; [reflexivity|].
    rewrite Hmax.
    destruct (Z.ltb_spec maxlength
                (Z.of_nat (String.length (word_text word)))) as [Hlt'|Hge'];
      [reflexivity|].
    destruct Hcase as [Hin|[Hshort|Hlong]]; [|lia|lia].
    rewrite Hlex. simpl. rewrite Hin. reflexivity. }
  split; [exact Hfind|].
  unfold LexiconModule.run, seq, zoom. simpl. rewrite Hfind. reflexivity.
Qed.

(** C10: for a word that is in the lexicon, or shorter than [minlength],
    or longer than [maxlength], [findclosest] should return [False].
    On a module object as the code makes it, it raises instead, for
    every word: [load] raises [NameError] on [collections] before it
    assigns [_cache], no other statement assigns that attribute, and
    line 87 of [findclosest] reads it.  This holds for the new object
    and for the object after [load]; [run] ends in the same exception
    with the module, the lock and the document as they were. *)
Theorem C10_findclosest_raises_without_cache
    (read_models : Setting -> eff LexiconModule.t unit)
    (levenshtein : string -> string -> Z -> Z) (G : Globals)
    (base : Mod.t) (word : FoliaWord) (sh : Shared) :
  LexiconModule.load read_models LexiconModule.lexicon_names
    (LexiconModule.created base)
  = Raises (NameError "collections") (LexiconModule.loaded read_models base)
  /\ LexiconModule.lexicon (LexiconModule.loaded read_models base) = Some []
  /\ LexiconModule.findclosest levenshtein (word_text word)
       (LexiconModule.loaded read_models base)
     = Raises (AttributeError "_cache") (LexiconModule.loaded read_models base)
  /\ LexiconModule.findclosest levenshtein (word_text word)
       (LexiconModule.created base)
     = Raises (AttributeError "_cache") (LexiconModule.created base)
  /\ LexiconModule.run levenshtein G word
       (LexiconModule.loaded read_models base, sh)
     = Raises (AttributeError "_cache")
         (LexiconModule.loaded read_models base, sh)
  /\ LexiconModule.run levenshtein G word (LexiconModule.created base, sh)
     = Raises (AttributeError "_cache") (LexiconModule.created base, sh).
Proof.
  unfold LexiconModule.loaded. rewrite load_raises. simpl.
  split; [reflexivity|]. split; [reflexivity|].
  split; [by apply findclosest_without_cache|].
  split; [by apply findclosest_without_cache|].
  split; by apply run_without_cache.
Qed.

(** The module made from [nine_settings], whose [minlength] is 5, and
    the word ["it"], which is shorter than that. *)
Example findclosest_short_word :
  LexiconModule.init_ "lexicon" nine_settings = Ok new_lexicon_module
  /\ LexiconModule.int_setting "minlength" loaded_lexicon_module = Ok 5%Z
  /\ String.length (word_text word_it) = 2
  /\ LexiconModule.load empty_files LexiconModule.lexicon_names
       new_lexicon_module
     = Raises (NameError "collections") loaded_lexicon_module
  /\ LexiconModule.findclosest constant_distance (word_text word_it)
       loaded_lexicon_module
     = Raises (AttributeError "_cache") loaded_lexicon_module
  /\ LexiconModule.run constant_distance gecco_globals word_it
       (loaded_lexicon_module, free_lock)
     = Raises (AttributeError "_cache") (loaded_lexicon_module, free_lock).
Proof. repeat split; vm_compute; reflexivity. Qed.

(** The same word on an object whose cache has been assigned. *)
Example findclosest_document :
  LexiconModule.findclosest constant_distance (word_text word_document)
    example_lexicon_module
  = Returns LexiconModule.NoSuggestions example_lexicon_module
  /\ LexiconModule.run constant_distance gecco_globals word_document
       (example_lexicon_module, free_lock)
     = Returns tt (example_lexicon_module, free_lock).
Proof.
  apply (findclosest_with_empty_cache constant_distance gecco_globals
           example_lexicon_module word_document free_lock 5 15
           [("correction", 20000%Z); ("document", 15000%Z); ("it", 90000%Z)]);
    try reflexivity.
  left. reflexivity.
Qed.

(** A word of accepted length that is not in the lexicon: the scan of
    the lexicon unpacks the first key, ["correction"], into two names. *)
Example findclosest_documant :
  LexiconModule.findclosest constant_distance "documant"
    example_lexicon_module
  = Raises ValueError example_lexicon_module.
Proof. vm_compute. reflexivity. Qed.

(** ** ProcessorThread.run *)

Section Worker.

Variable module_run : Mod.t -> Data -> eff Shared unit.
Variable module_runclient : Mod.t -> ClientObj -> Data -> eff Shared unit.

Abbreviation run_item := (ProcessorThread.run_item module_run module_runclient).
Abbreviation run := (ProcessorThread.run module_run module_runclient).

(** Processing an item changes at most the client cache, the document
    and lock, and the record of the load balancer: it touches neither
    the queue nor its count of unfinished tasks nor the flag [stop]. *)
Lemma run_item_changes (G : Globals) (item : Mod.t * Data)
    (w : ProcessorThread.t) :
  exists cl n sh lb,
    final (run_item G item w)
    = {| ProcessorThread.stop := ProcessorThread.stop w;
         ProcessorThread.loadbalancemaster :=
           ProcessorThread.loadbalancemaster w;
         ProcessorThread.clients := cl;
         ProcessorThread.constructed := n;
         ProcessorThread.queue := ProcessorThread.queue w;
         ProcessorThread.unfinished := ProcessorThread.unfinished w;
         ProcessorThread.shared := sh;
         ProcessorThread.lblog := lb |}.
Proof.
  destruct item as [module data].
  destruct w as [st lbm cl n q unf sh lb].
  unfold ProcessorThread.run_item.
  repeat first
    [ progress cbn
    | progress (unfold seq, zoom, lift, global, ret, raise,
                ProcessorThread.cached_client, ProcessorThread.on_shared,
                ProcessorThread.on_lblog, ProcessorThread.store_new_client)
    | rewrite lookup_insert_eq
    | match goal with
      | |- context [match ?x with _ => _ end] =>
          lazymatch x with
          | context [match _ with _ => _ end] => fail
          | _ => destruct x eqn:?
          end
      end ];
    eauto.
Qed.

Lemma run_item_keeps_queue (G : Globals) (item : Mod.t * Data)
    (w w' : ProcessorThread.t) :
  final (run_item G item w) = w' ->
  ProcessorThread.queue w' = ProcessorThread.queue w
  /\ ProcessorThread.unfinished w' = ProcessorThread.unfinished w
  /\ ProcessorThread.stop w' = ProcessorThread.stop w.
Proof.
  intros <-. destruct (run_item_changes G item w) as (cl & n & sh & lb & ->).
  auto.
Qed.

(** C2, as the code has it: an exception raised while the worker
    processes the item it took is not caught.  It leaves [run], which
    ends the worker: [task_done] is not called for the item and the
    items that were behind it stay in the queue. *)
Theorem C2_exception_ends_worker (fuel : nat) (G : Globals) (q : QueueRef)
    (w w1 w2 : ProcessorThread.t) (item : Mod.t * Data) (e : exn) :
  ProcessorThread.stop w = false ->
  g_q G = Some q ->
  ProcessorThread.q_get q w = Returns item w1 ->
  run_item G item w1 = Raises e w2 ->
  run (S fuel) G w = Raises e w2
  /\ ProcessorThread.queue w2 = tail (ProcessorThread.queue w)
  /\ ProcessorThread.unfinished w2 = ProcessorThread.unfinished w.
Proof.
  intros Hstop Hq Hget Hitem.
  destruct (run_item_keeps_queue G item w1 w2) as (Hqueue & Hunf & _);
    [by rewrite Hitem|].
  unfold ProcessorThread.q_get in Hget.
  destruct (ProcessorThread.queue w) as [|first rest] eqn:Hw; [discriminate|].
  injection Hget as <- <-. simpl in Hqueue, Hunf.
  split; [|split; [exact Hqueue|exact Hunf]].
  simpl. rewrite Hstop. unfold seq at 1. rewrite Hq. simpl.
  unfold seq at 1. unfold ProcessorThread.q_empty. rewrite Hw.
  rewrite bool_decide_eq_false_2 by discriminate. simpl.
  unfold seq at 1. unfold ProcessorThread.q_get. rewrite Hw.
  unfold seq at 1. rewrite Hitem. reflexivity.
Qed.

(** With the names [gecco.py] binds, the loop ends on its first
    round: [q] is not the attribute [self.q]. *)
Lemma run_NameError_q (fuel : nat) (w : ProcessorThread.t) :
  ProcessorThread.stop w = false ->
  run (S fuel) gecco_globals w = Raises (NameError "q") w.
Proof. intros Hstop. simpl. rewrite Hstop. reflexivity. Qed.

(** When the cache holds a client for the endpoint that [findserver]
    returns, the callback receives that client and none is
    constructed. *)
Lemma run_item_cache_hit (G : Globals) (module : Mod.t) (data : Data)
    (w : ProcessorThread.t) (endpoint : Endpoint) (c : ClientObj) :
  Mod.local module = false ->
  Mod.settings module !! "servers" = Some (SServers [endpoint]) ->
  ProcessorThread.clients w !! endpoint = Some c ->
  run_item G (module, data) w
  = ProcessorThread.on_shared (module_runclient module c data) w.
Proof.
  intros Hlocal Hservers Hc. unfold ProcessorThread.run_item.
  rewrite Hlocal. unfold seq at 1. unfold ProcessorThread.on_lblog, zoom.
  rewrite (findserver_one_endpoint G module _ endpoint _ Hlocal Hservers).
  destruct endpoint as [server port]. destruct w as [st lbm cl n q unf sh lb].
  cbn in Hc.
  unfold seq, ret, ProcessorThread.cached_client, ProcessorThread.on_shared,
    zoom; cbn.
  rewrite Hc; cbn. rewrite Hc. reflexivity.
Qed.

End Worker.


Lemma C2_exception_ends_worker_witness :
  ProcessorThread.run example_run example_runclient 3 globals_with_q
    worker_two_items
  = Raises NotImplementedError
      (ProcessorThread.init_ (tail two_items) 2 free_lock no_balancer [])
  /\ ProcessorThread.queue
       (ProcessorThread.init_ (tail two_items) 2 free_lock no_balancer [])
     = tail (ProcessorThread.queue worker_two_items)
  /\ ProcessorThread.unfinished
       (ProcessorThread.init_ (tail two_items) 2 free_lock no_balancer [])
     = ProcessorThread.unfinished worker_two_items.
Proof.
  apply (C2_exception_ends_worker example_run example_runclient 2
           globals_with_q DispatchQueue worker_two_items
           (ProcessorThread.init_ (tail two_items) 2 free_lock no_balancer [])
           (ProcessorThread.init_ (tail two_items) 2 free_lock no_balancer [])
           (local_module "base", Element Word "w1") NotImplementedError).
  - reflexivity.
  - reflexivity.
  - reflexivity.
  - reflexivity.
Defined.

(** C2 as the specification has it, at a worker in front of two items
    of which the first raises: the worker does not go on to the second
    item.  The exception leaves [run] however many rounds the loop is
    given; the second item is still in the queue, both tasks are still
    unfinished, and the module of the second item has logged nothing. *)
Lemma C2_worker_aborts_on_failing_item :
  ProcessorThread.run example_run example_runclient 100 globals_with_q
    worker_two_items
  = Raises NotImplementedError
      (ProcessorThread.init_ [(local_module "logging", Element Word "w2")] 2
         free_lock no_balancer []).
Proof. reflexivity. Qed.

(** The same queue when the first item does not raise: the worker
    processes both items and then spins on the empty queue. *)
Example worker_processes_both :
  ProcessorThread.run example_run example_runclient 3 globals_with_q
    (ProcessorThread.init_
       [(local_module "logging", Element Word "w1");
        (local_module "logging", Element Word "w2")] 2
       free_lock no_balancer [])
  = OutOfFuel
      (ProcessorThread.init_ [] 0
         {| lock_held := false;
            events := [EvLog "run logging"; EvLog "run logging"] |}
         no_balancer []).
Proof. reflexivity. Qed.

(** C9: on a cache miss the worker should construct a client for the
    endpoint that [findserver] returned and cache it.  The code calls
    [module.CLIENT(host, port)], and [host] is not the variable [server]
    that holds the resolved host.  With the names [gecco.py] binds the
    call raises, no client is constructed and none is cached; were a
    global [host] bound, the client stored for [("localhost", 9000)]
    would be constructed for that other host. *)
Theorem C9_client_not_built_for_resolved_endpoint :
  ProcessorThread.run_item example_run example_runclient gecco_globals
    (single_endpoint_module, Element Word "w1") worker_remote_item
  = Raises (NameError "host") worker_remote_item
  /\ ProcessorThread.clients worker_remote_item = ∅
  /\ ProcessorThread.clients
       (final (ProcessorThread.run_item example_run example_runclient
                 globals_with_q_host
                 (single_endpoint_module, Element Word "w1")
                 worker_remote_item))
     !! ("localhost", 9000%Z)
     = Some {| client_no := 0; client_args := ("elsewhere", 9000%Z) |}.
Proof. repeat split; vm_compute; reflexivity. Qed.

(** ** Corrector.run: the actions and the work items *)

Lemma emits_ret : emits (ret tt) [].
Proof. intros done. unfold ret. by rewrite app_nil_r. Qed.

Lemma emits_act (a : Action) : emits (act a) [a].
Proof. intros done. reflexivity. Qed.

Lemma emits_seq (m : eff (list Action) unit) (k : unit -> eff (list Action) unit)
    (l1 l2 : list Action) :
  emits m l1 -> emits (k tt) l2 -> emits (seq m k) (l1 ++ l2).
Proof.
  intros Hm Hk done. unfold seq. rewrite Hm, Hk. by rewrite app_assoc.
Qed.

Lemma emits_for_each {A} (l : list A) (body : A -> eff (list Action) unit)
    (f : A -> list Action) :
  (forall x, emits (body x) (f x)) ->
  emits (for_each l body) (flat_map f l).
Proof.
  intros Hbody. induction l as [|x l IH]; simpl.
  - apply emits_ret.
  - apply emits_seq; [apply Hbody|exact IH].
Qed.

Lemma flat_map_singleton {A B} (f : A -> B) (l : list A) :
  flat_map (fun x => [f x]) l = map f l.
Proof. induction l as [|x l IH]; simpl; congruence. Qed.

Lemma emits_for_each_act {A} (l : list A) (f : A -> Action) :
  emits (for_each l (fun x => act (f x))) (map f l).
Proof.
  rewrite <- flat_map_singleton.
  apply emits_for_each. intros x. apply emits_act.
Qed.

Lemma emits_put_if (kind : UnitKind) (data : Data) (ms : list Mod.t) :
  emits (for_each ms (Corrector.put_if kind data)) (put_actions kind data ms).
Proof.
  apply emits_for_each. intros module. unfold Corrector.put_if.
  destruct (decide (Mod.UNIT module = kind)); [apply emits_act|apply emits_ret].
Qed.

Lemma seq_emits {B} (m : eff (list Action) unit)
    (k : unit -> eff (list Action) B) (l done : list Action) :
  emits m l -> seq m k done = k tt (done ++ l).
Proof. intros Hm. unfold seq. by rewrite Hm. Qed.

Lemma emits_document_part (self : Corrector.t) (foliadoc : FoliaDoc)
    (units : list UnitKind) :
  emits
    (if decide (Document ∈ units) then
       seq (act (ALog "Queuing modules handling documents"))
         (fun _ => for_each (Corrector.iter self)
                     (Corrector.put_if Document
                        (WholeDocument (doc_id foliadoc))))
     else ret tt)
    (document_part self foliadoc units).
Proof.
  unfold document_part.
  destruct (decide (Document ∈ units)); [|apply emits_ret].
  apply (emits_seq _ _ [_]); [apply emits_act|apply emits_put_if].
Qed.

Lemma emits_element_part (self : Corrector.t) (foliadoc : FoliaDoc)
    (units : list UnitKind) :
  emits
    (for_each units (fun kind =>
       if decide (kind = Document) then ret tt
       else
         seq (act (ALog "Queuing modules handling elements"))
           (fun _ => for_each (select foliadoc kind) (fun data =>
              for_each (Corrector.iter self) (Corrector.put_if kind data)))))
    (element_part self foliadoc units).
Proof.
  apply emits_for_each. intros kind.
  destruct (decide (kind = Document)); [apply emits_ret|].
  apply (emits_seq _ _ [_]); [apply emits_act|].
  apply emits_for_each. intros data. apply emits_put_if.
Qed.

Lemma emits_final_actions (self : Corrector.t) :
  emits
    (seq (act (ALog "Processing all modules...."))
       (fun _ => seq (act AJoin)
       (fun _ => seq (Corrector.stop_threads 0)
       (fun _ => seq (act (ALog "Finalising modules on document"))
       (fun _ => seq (for_each (Corrector.iter self)
                        (fun module => act (AFinish module)))
       (fun _ => seq (act (ALog "Processing all modules...."))
       (fun _ => act ASave)))))))
    (final_actions self).
Proof.
  unfold final_actions.
  apply (emits_seq _ _ [_]); [apply emits_act|].
  apply (emits_seq _ _ [_]); [apply emits_act|].
  apply (emits_seq _ _ []); [apply emits_ret|].
  apply (emits_seq _ _ [_]); [apply emits_act|].
  apply emits_seq; [apply emits_for_each_act|].
  apply (emits_seq _ _ [_]); apply emits_act.
Qed.

(** The actions of a call of [run]: the modules are initialised; then
    the call raises, unless the number of threads is zero and the global
    name [units] is bound, in which case it enqueues, joins, finishes
    and saves. *)
Lemma script_shape (G : Globals) (self : Corrector.t) (foliadoc : FoliaDoc) :
  Corrector.script G self foliadoc
  = init_actions self
    ++ match Corrector.thread_count self with
       | Raise e => [ARaise e]
       | Ok (S _) => [ARaise (UnboundLocalError "queue")]
       | Ok O =>
           match g_units G with
           | None => [ARaise (NameError "units")]
           | Some units =>
               queue_actions self foliadoc units ++ final_actions self
           end
       end.
Proof.
  unfold Corrector.script, Corrector.run.
  rewrite (seq_emits _ _ [_] _ (emits_act _)).
  rewrite (seq_emits _ _ _ _ (emits_for_each_act _ _)).
  rewrite (seq_emits _ _ [_] _ (emits_act _)).
  simpl app at 1. fold (init_actions self).
  unfold seq at 1. unfold lift at 1.
  destruct (Corrector.thread_count self) as [[|n]|e]; [| |reflexivity].
  - unfold seq at 1. cbn [Corrector.start_threads]. unfold ret at 1.
    unfold seq at 1. unfold lift at 1, global.
    destruct (g_units G) as [units|]; [|reflexivity].
    rewrite (seq_emits _ _ _ _ (emits_document_part self foliadoc units)).
    rewrite (seq_emits _ _ _ _ (emits_element_part self foliadoc units)).
    rewrite (emits_final_actions self).
    unfold queue_actions. by rewrite <- !app_assoc.
  - reflexivity.
Qed.

Lemma puts_app (l1 l2 : list Action) :
  Corrector.puts (l1 ++ l2) = Corrector.puts l1 ++ Corrector.puts l2.
Proof. apply omap_app. Qed.

Lemma puts_init_actions (self : Corrector.t) :
  Corrector.puts (init_actions self) = [].
Proof.
  unfold init_actions. simpl. rewrite puts_app. simpl.
  rewrite app_nil_r. induction (Corrector.iter self); simpl; auto.
Qed.

(** C1: [run] should enqueue one work item for every module and every
    unit of the module's kind.  With the names [gecco.py] binds, [run]
    enqueues no work item, for every corrector and every document: it
    raises when it creates the first thread, because [queue] is assigned
    after the loop that passes it to the threads, and with no thread it
    raises on [units], which is not the attribute [self.units]. *)
Theorem C1_run_enqueues_nothing (self : Corrector.t) (foliadoc : FoliaDoc) :
  Corrector.puts (Corrector.script gecco_globals self foliadoc) = [].
Proof.
  rewrite script_shape, puts_app, puts_init_actions. simpl.
  destruct (Corrector.thread_count self) as [[|n]|e]; reflexivity.
Qed.

(** One module for words, a document of two words and one thread: the
    two items [(module, word)] are not enqueued. *)
Example run_two_words :
  Corrector.script gecco_globals (word_corrector 1) two_word_document
  = [ALog "Initialising modules on document"; AInit (local_module "logging");
     ALog "Initialising threads"; ARaise (UnboundLocalError "queue")].
Proof. reflexivity. Qed.

(** The attribute [self.units], had [__init__] come as far as assigning
    it, would be the empty set: the registry is empty at that point. *)
Example init_raises (settings : gmap string Setting) :
  Corrector.init_ settings
  = Raise (TypeError "verifysettings() takes 0 positional arguments but 1 was given")
  /\ Corrector.collect_units [] = Ok [].
Proof. split; reflexivity. Qed.

(** ** The drain barrier *)

Lemma ordered_before (l1 l2 : list Action) :
  forallb is_before l1 = true ->
  ordered false (l1 ++ l2) = ordered false l2.
Proof.
  induction l1 as [|a l1 IH]; simpl; [reflexivity|].
  intros [Ha Hl]%andb_prop. destruct a; simpl in *; auto; discriminate.
Qed.

Lemma ordered_after (l : list Action) :
  forallb is_after l = true -> ordered true l = true.
Proof.
  induction l as [|a l IH]; simpl; [reflexivity|].
  intros [Ha Hl]%andb_prop. destruct a; simpl in *; auto; discriminate.
Qed.

Lemma forallb_map_const {A} (f : A -> Action) (p : Action -> bool)
    (l : list A) :
  (forall x, p (f x) = true) -> forallb p (map f l) = true.
Proof. intros Hp. induction l; simpl; [|rewrite Hp]; auto. Qed.

Lemma before_put_actions (kind : UnitKind) (data : Data) (ms : list Mod.t) :
  forallb is_before (put_actions kind data ms) = true.
Proof.
  unfold put_actions. induction ms as [|m ms IH]; simpl; [reflexivity|].
  rewrite forallb_app, IH. destruct (decide (Mod.UNIT m = kind)); reflexivity.
Qed.

Lemma before_queue_actions (self : Corrector.t) (foliadoc : FoliaDoc)
    (units : list UnitKind) :
  forallb is_before (queue_actions self foliadoc units) = true.
Proof.
  unfold queue_actions, document_part, element_part.
  rewrite forallb_app. apply andb_true_intro. split.
  - destruct (decide (Document ∈ units)); [|reflexivity].
    simpl. apply before_put_actions.
  - induction units as [|kind units IH]; simpl; [reflexivity|].
    rewrite forallb_app, IH, andb_true_r.
    destruct (decide (kind = Document)); [reflexivity|]. simpl.
    induction (select foliadoc kind) as [|data l IHl]; simpl; [reflexivity|].
    by rewrite forallb_app, before_put_actions, IHl.
Qed.

(** In every script of [run] the work items are enqueued before the one
    [join], and modules are finished and the document saved after it. *)
Lemma script_ordered (G : Globals) (self : Corrector.t) (foliadoc : FoliaDoc) :
  ordered false (Corrector.script G self foliadoc) = true.
Proof.
  rewrite script_shape. rewrite ordered_before.
  2:{ unfold init_actions. simpl. rewrite forallb_app. simpl.
      rewrite andb_true_r. by apply forallb_map_const. }
  destruct (Corrector.thread_count self) as [[|n]|e]; [|reflexivity..].
  destruct (g_units G) as [units|]; [|reflexivity].
  rewrite ordered_before by apply before_queue_actions.
  unfold final_actions. simpl. apply ordered_after.
  rewrite forallb_app. simpl. rewrite andb_true_r.
  by apply forallb_map_const.
Qed.

(** No list of actions of [run] holds the start of a thread. *)
Lemma not_start_map {A} (f : A -> Action) (l : list A) :
  (forall x, f x <> AStart) -> AStart ∉ map f l.
Proof.
  intros Hf Hin. apply list_elem_of_fmap in Hin as (x & Heq & _).
  by apply (Hf x).
Qed.

Lemma not_start_put_actions (kind : UnitKind) (data : Data)
    (ms : list Mod.t) :
  AStart ∉ put_actions kind data ms.
Proof.
  unfold put_actions. intros Hin.
  apply list_elem_of_In, in_flat_map in Hin as (m & _ & Hin).
  destruct (decide (Mod.UNIT m = kind)); simpl in Hin; [|contradiction].
  destruct Hin as [Heq|[]]. discriminate.
Qed.

Lemma not_start_init_actions (self : Corrector.t) :
  AStart ∉ init_actions self.
Proof.
  unfold init_actions. intros Hin.
  apply elem_of_cons in Hin as [Heq|Hin]; [discriminate|].
  apply elem_of_app in Hin as [Hin|Hin].
  - by apply not_start_map in Hin.
  - apply list_elem_of_singleton in Hin. discriminate.
Qed.

Lemma not_start_queue_actions (self : Corrector.t) (foliadoc : FoliaDoc)
    (units : list UnitKind) :
  AStart ∉ queue_actions self foliadoc units.
Proof.
  unfold queue_actions, document_part, element_part. intros Hin.
  apply elem_of_app in Hin as [Hin|Hin].
  - destruct (decide (Document ∈ units)); [|by apply elem_of_nil in Hin].
    apply elem_of_cons in Hin as [Heq|Hin]; [discriminate|].
    by apply not_start_put_actions in Hin.
  - apply list_elem_of_In, in_flat_map in Hin as (kind & _ & Hin).
    destruct (decide (kind = Document)); [contradiction|].
    destruct Hin as [Heq|Hin]; [discriminate|].
    apply in_flat_map in Hin as (data & _ & Hin).
    apply list_elem_of_In in Hin. by apply not_start_put_actions in Hin.
Qed.

Lemma not_start_final_actions (self : Corrector.t) :
  AStart ∉ final_actions self.
Proof.
  unfold final_actions. intros Hin.
  apply elem_of_app in Hin as [Hin|Hin].
  - repeat (apply elem_of_cons in Hin as [Heq|Hin]; [discriminate|]).
    by apply elem_of_nil in Hin.
  - apply elem_of_app in Hin as [Hin|Hin].
    + by apply not_start_map in Hin.
    + repeat (apply elem_of_cons in Hin as [Heq|Hin]; [discriminate|]).
      by apply elem_of_nil in Hin.
Qed.

Lemma script_starts_no_thread (G : Globals) (self : Corrector.t)
    (foliadoc : FoliaDoc) :
  AStart ∉ Corrector.script G self foliadoc.
Proof.
  rewrite script_shape. intros Hin.
  apply elem_of_app in Hin as [Hin|Hin];
    [by apply not_start_init_actions in Hin|].
  destruct (Corrector.thread_count self) as [[|n]|e].
  - destruct (g_units G) as [units|].
    + apply elem_of_app in Hin as [Hin|Hin].
      * by apply not_start_queue_actions in Hin.
      * by apply not_start_final_actions in Hin.
    + apply list_elem_of_singleton in Hin. discriminate.
  - apply list_elem_of_singleton in Hin. discriminate.
  - apply list_elem_of_singleton in Hin. discriminate.
Qed.

(** With the names [gecco.py] binds, the script of [run] is the
    initialisation of the modules followed by an exception. *)
Lemma script_gecco_globals (self : Corrector.t) (foliadoc : FoliaDoc) :
  exists e,
    Corrector.script gecco_globals self foliadoc
    = init_actions self ++ [ARaise e].
Proof.
  rewrite script_shape. simpl.
  destruct (Corrector.thread_count self) as [[|n]|e]; eauto.
Qed.

Lemma not_join_init_actions (self : Corrector.t) (e : exn) :
  AJoin ∉ init_actions self ++ [ARaise e].
Proof.
  unfold init_actions. intros Hin.
  apply elem_of_app in Hin as [Hin|Hin].
  - apply elem_of_cons in Hin as [Heq|Hin]; [discriminate|].
    apply elem_of_app in Hin as [Hin|Hin].
    + apply list_elem_of_fmap in Hin as (m & Heq & _). discriminate.
    + apply list_elem_of_singleton in Hin. discriminate.
  - apply list_elem_of_singleton in Hin. discriminate.
Qed.

(** C6: [run] should wait at [queue.join()] until the workers have taken
    and completed every item it has enqueued, with the workers running
    until then.  In the code no call of [run] starts a worker, whatever
    the global names are bound to: the loop that creates the threads
    reads [queue] before its assignment.  With the names [gecco.py]
    binds, [run] ends in an exception without having enqueued an item
    or reached [queue.join()]; and the loop of a worker thread, as
    [ProcessorThread.__init__] makes it, ends on its first round in a
    [NameError], with the queue and the count of unfinished tasks as
    they were. *)
Theorem C6_run_starts_no_worker (self : Corrector.t) (foliadoc : FoliaDoc) :
  (forall G, AStart ∉ Corrector.script G self foliadoc)
  /\ (exists e,
         last (Corrector.script gecco_globals self foliadoc)
         = Some (ARaise e))
  /\ Corrector.puts (Corrector.script gecco_globals self foliadoc) = []
  /\ (AJoin ∉ Corrector.script gecco_globals self foliadoc)
  /\ (forall (module_run : Mod.t -> Data -> eff Shared unit)
             (module_runclient : Mod.t -> ClientObj -> Data -> eff Shared unit)
             (fuel : nat) (q : list (Mod.t * Data)) (pending : nat)
             (sh : Shared) (lbm : LoadBalanceMaster) (log : LBLog),
         ProcessorThread.run module_run module_runclient (S fuel)
           gecco_globals (ProcessorThread.init_ q pending sh lbm log)
         = Raises (NameError "q")
             (ProcessorThread.init_ q pending sh lbm log)).
Proof.
  split; [intros G; apply script_starts_no_thread|].
  destruct (script_gecco_globals self foliadoc) as [e Hscript].
  rewrite Hscript.
  split; [exists e; apply last_snoc|].
  split; [by rewrite puts_app, puts_init_actions|].
  split; [apply not_join_init_actions|].
  reflexivity.
Qed.

(** One module for words, a document of two words and one thread: no
    thread is started and [join] is not reached. *)
Example run_two_words_no_worker :
  (AStart ∉ Corrector.script gecco_globals (word_corrector 1)
              two_word_document)
  /\ (AJoin ∉ Corrector.script gecco_globals (word_corrector 1)
                two_word_document).
Proof.
  split; intros Hin%list_elem_of_In; vm_compute in Hin;
    repeat (destruct Hin as [Hin|Hin]; [discriminate|]); exact Hin.
Qed.

(** * Further properties of the code *)

(** ** Module.verifysettings *)

Lemma setdefault_lookup (key : string) (v : Setting) (d : gmap string Setting) :
  is_Some (Mod.setdefault key v d !! key).
Proof.
  unfold Mod.setdefault. destruct (d !! key) eqn:Hd.
  - rewrite Hd. eauto.
  - rewrite lookup_insert_eq. eauto.
Qed.

Lemma setdefault_keeps (key key' : string) (v x : Setting)
    (d : gmap string Setting) :
  d !! key' = Some x -> Mod.setdefault key v d !! key' = Some x.
Proof.
  intros Hx. unfold Mod.setdefault. destruct (d !! key) eqn:Hd; [done|].
  destruct (decide (key = key')) as [->|Hne]; [congruence|].
  by rewrite lookup_insert_ne.
Qed.

Lemma setdefault_present (key : string) (v : Setting)
    (d : gmap string Setting) :
  is_Some (d !! key) -> Mod.setdefault key v d = d.
Proof. intros [x Hx]. unfold Mod.setdefault. by rewrite Hx. Qed.

(** [Module.verifysettings] only adds to the settings: every value the
    caller gave is kept, the four keys [logfunction], [set], [class] and
    [annotator] have a value afterwards, and no other key is added. *)
Theorem verifysettings_defaults (self : Mod.t) :
  (forall key v,
      Mod.settings self !! key = Some v ->
      Mod.settings (Mod.verifysettings self) !! key = Some v)
  /\ is_Some (Mod.settings (Mod.verifysettings self) !! "logfunction")
  /\ is_Some (Mod.settings (Mod.verifysettings self) !! "set")
  /\ is_Some (Mod.settings (Mod.verifysettings self) !! "class")
  /\ is_Some (Mod.settings (Mod.verifysettings self) !! "annotator")
  /\ (forall key,
         key <> "logfunction" -> key <> "set" -> key <> "class" ->
         key <> "annotator" ->
         Mod.settings (Mod.verifysettings self) !! key
         = Mod.settings self !! key).
Proof.
  unfold Mod.verifysettings; simpl. repeat split.
  - intros key v Hv. by do 4 apply setdefault_keeps.
  - destruct (setdefault_lookup "logfunction" SLogFunction (Mod.settings self))
      as [x Hx].
    exists x. by do 3 apply setdefault_keeps.
  - match goal with
    | |- is_Some (Mod.setdefault _ _ (Mod.setdefault _ _ (Mod.setdefault ?k ?v ?d)) !! _) =>
        destruct (setdefault_lookup k v d) as [x Hx]
    end.
    exists x. by do 2 apply setdefault_keeps.
  - match goal with
    | |- is_Some (Mod.setdefault _ _ (Mod.setdefault ?k ?v ?d) !! _) =>
        destruct (setdefault_lookup k v d) as [x Hx]
    end.
    exists x. by apply setdefault_keeps.
  - apply setdefault_lookup.
  - intros key H1 H2 H3 H4. by rewrite !setdefault_lookup_ne.
Qed.

(** Verifying the settings twice gives what verifying them once gives. *)
Theorem verifysettings_idempotent (self : Mod.t) :
  Mod.verifysettings (Mod.verifysettings self) = Mod.verifysettings self.
Proof.
  destruct (verifysettings_defaults self) as (_ & Hlog & Hset & Hcls & Hann & Hother).
  unfold Mod.verifysettings in *; simpl in *.
  set (d := Mod.settings self) in *.
  set (d4 := Mod.setdefault "annotator" _ _) in *.
  assert (H1 : Mod.setdefault "logfunction" SLogFunction d4 = d4)
    by (by apply setdefault_present).
  rewrite H1.
  match goal with
  | |- context [Mod.setdefault "set" ?v d4] =>
      assert (H2 : Mod.setdefault "set" v d4 = d4)
        by (by apply setdefault_present); rewrite H2
  end.
  assert (H3 : Mod.setdefault "class" (SStr "nonworderror") d4 = d4)
    by (by apply setdefault_present).
  rewrite H3.
  match goal with
  | |- context [Mod.setdefault "annotator" ?v d4] =>
      assert (H4 : Mod.setdefault "annotator" v d4 = d4)
        by (by apply setdefault_present); rewrite H4
  end.
  unfold Mod.one_or_many.
  rewrite !(Hother "servers"), !(Hother "source"), !(Hother "sources"),
    !(Hother "model"), !(Hother "models") by discriminate.
  f_equal.
  - destruct (d !! "source") as [[]|]; try reflexivity.
    destruct (d !! "sources"); reflexivity.
  - destruct (d !! "model") as [[]|]; try reflexivity.
    destruct (d !! "models"); reflexivity.
Qed.

(** ** Module.findserver *)

(** With the names [gecco.py] binds, [findserver] never reaches the load
    balancer, and the only value it returns is the single configured
    endpoint of a module that is not local: a local module, a module
    without the key ['servers'] and a module with no or with several
    endpoints all end in an exception. *)
Theorem findserver_returns_only_single_endpoint (self : Mod.t)
    (loadbalanceserver : LoadBalanceMaster) (log : LBLog) :
  final (Mod.findserver gecco_globals self loadbalanceserver log) = log
  /\ (forall found log',
         Mod.findserver gecco_globals self loadbalanceserver log
         = Returns found log' ->
         exists e, found = Some e /\ Mod.local self = false
                   /\ Mod.servers self = [e])
  /\ (Mod.local self = true ->
      Mod.findserver gecco_globals self loadbalanceserver log
      = Raises (Exception "Module is local") log)
  /\ (Mod.local self = false -> Mod.settings self !! "servers" = None ->
      Mod.findserver gecco_globals self loadbalanceserver log
      = Raises (KeyError "servers") log).
Proof.
  unfold Mod.findserver, Mod.servers_setting, Mod.servers, Mod.getitem.
  destruct (Mod.local self); [repeat split; try discriminate; reflexivity|].
  unfold seq, lift, raise, ret; simpl.
  destruct (Mod.settings self !! "servers") as [[| | | |l|]|];
    try (repeat split; try discriminate; reflexivity).
  simpl. destruct l as [|e [|e' l]]; simpl.
  - repeat split; try discriminate; reflexivity.
  - repeat split; try discriminate.
    intros found log' [= <- <-]. eauto.
  - repeat split; try discriminate; reflexivity.
Qed.

(** ** The editing methods and the lock *)

(** Each of the four editing methods, called on a free lock, ends in one
    of two ways: it returns with the lock free again after exactly one
    edit, made between [acquire] and [release]; or it raises with the
    lock still held and without having made an edit. *)
Theorem edit_methods_end (G : Globals) (self : Mod.t) (word : FoliaWord)
    (suggestions newwords : list string) (confidence : option Z)
    (newword : string) (originalwords : list FoliaWord) (w : Shared) :
  lock_held w = false ->
  edit_call_ends w (Mod.addwordsuggestions G self word suggestions confidence w)
  /\ edit_call_ends w (Mod.adderrordetection G self word w)
  /\ edit_call_ends w (Mod.splitcorrection G self word newwords w)
  /\ edit_call_ends w (Mod.mergecorrection G self newword originalwords w).
Proof.
  intros Hfree. repeat split.
  - by apply addwordsuggestions_ends.
  - by apply adderrordetection_ends.
  - by apply splitcorrection_ends.
  - by apply mergecorrection_ends.
Qed.

Lemma edit_methods_end_witness :
  edit_call_ends free_lock
    (Mod.addwordsuggestions globals_for_editing editing_module word_documant
       ["document"] None free_lock)
  /\ edit_call_ends free_lock
       (Mod.adderrordetection globals_for_editing editing_module
          word_documant free_lock)
  /\ edit_call_ends free_lock
       (Mod.splitcorrection globals_for_editing editing_module word_documant
          ["docu"; "mant"] free_lock)
  /\ edit_call_ends free_lock
       (Mod.mergecorrection globals_for_editing editing_module "documant"
          [word_document; word_documant] free_lock).
Proof.
  apply (edit_methods_end globals_for_editing editing_module word_documant
           ["document"] ["docu"; "mant"] None "documant"
           [word_document; word_documant] free_lock).
  reflexivity.
Defined.

(** The four calls of the witness return: each has made its edit. *)
Example edit_methods_return :
  edits_of (events (final (Mod.addwordsuggestions globals_for_editing
                             editing_module word_documant ["document"] None
                             free_lock)))
  = [Correction "d.s.1.w.2" "d.s.1.w.2.correction" ["document"]
       (SStr "https://raw.githubusercontent.com/proycon/folia/master/setdefinitions/spellingcorrection.foliaset.xml")
       (SStr "nonworderror") (SStr "Gecco-Module") 0 None]
  /\ edits_of (events (final (Mod.mergecorrection globals_for_editing
                                editing_module "documant"
                                [word_document; word_documant] free_lock)))
     = [Merge "d.s.1" "documant" ["d.s.1.w.1"; "d.s.1.w.2"] 0].
Proof. split; vm_compute; reflexivity. Qed.

(** Called while the lock is held, an editing method waits for the
    lock: it makes no edit and does not touch the lock. *)
Theorem edit_methods_wait (G : Globals) (self : Mod.t) (word : FoliaWord)
    (suggestions newwords : list string) (confidence : option Z)
    (newword : string) (originalwords : list FoliaWord) (w : Shared) :
  lock_held w = true ->
  Mod.addwordsuggestions G self word suggestions confidence w
  = Blocks {| lock_held := true;
              events := events w
                        ++ [EvLog ("Adding correction for " +:+ word_id word
                                     +:+ " " +:+ word_text word)] |}
  /\ Mod.adderrordetection G self word w
     = Blocks {| lock_held := true;
                 events := events w
                           ++ [EvLog ("Adding correction for "
                                        +:+ word_id word +:+ " "
                                        +:+ word_text word)] |}
  /\ Mod.splitcorrection G self word newwords w = Blocks w
  /\ Mod.mergecorrection G self newword originalwords w = Blocks w.
Proof.
  intros Hheld. destruct w as [held evs]. simpl in Hheld. subst held.
  repeat split.
Qed.

Lemma edit_methods_wait_witness :
  Mod.addwordsuggestions gecco_globals editing_module word_documant
    ["document"] None held_lock
  = Blocks {| lock_held := true;
              events := events held_lock
                        ++ [EvLog ("Adding correction for "
                                     +:+ word_id word_documant +:+ " "
                                     +:+ word_text word_documant)] |}
  /\ Mod.adderrordetection gecco_globals editing_module word_documant held_lock
     = Blocks {| lock_held := true;
                 events := events held_lock
                           ++ [EvLog ("Adding correction for "
                                        +:+ word_id word_documant +:+ " "
                                        +:+ word_text word_documant)] |}
  /\ Mod.splitcorrection gecco_globals editing_module word_documant ["a"]
       held_lock = Blocks held_lock
  /\ Mod.mergecorrection gecco_globals editing_module "ab" [word_document]
       held_lock = Blocks held_lock.
Proof.
  apply (edit_methods_wait gecco_globals editing_module word_documant
           ["document"] ["a"] None "ab" [word_document] held_lock).
  reflexivity.
Defined.

(** ** LexiconModule *)

(** From a cache that is unset or empty, [findclosest] never returns a
    list of suggestions: it returns [False] or raises, and leaves the
    module as it was.  (The scan of the lexicon unpacks each key into
    two names, appends to [self.results], and slices the value of
    [sort].) *)
Theorem findclosest_never_suggests
    (levenshtein : string -> string -> Z -> Z) (word : string)
    (self : LexiconModule.t) :
  LexiconModule._cache self = None \/ LexiconModule._cache self = Some [] ->
  LexiconModule.findclosest levenshtein word self
  = Returns LexiconModule.NoSuggestions self
  \/ exists e, LexiconModule.findclosest levenshtein word self = Raises e self.
Proof. apply findclosest_unset_or_empty. Qed.

Lemma findclosest_never_suggests_witness :
  LexiconModule.findclosest constant_distance "documant" example_lexicon_module
  = Returns LexiconModule.NoSuggestions example_lexicon_module
  \/ exists e,
       LexiconModule.findclosest constant_distance "documant"
         example_lexicon_module
       = Raises e example_lexicon_module.
Proof.
  apply (findclosest_never_suggests constant_distance "documant"
           example_lexicon_module).
  right. reflexivity.
Defined.

(** A lexicon module whose cache is unset or empty, as it is on every
    object that [__init__] and [load] leave, never edits the document:
    whatever the word, [run] leaves the module, the lock and the
    document as they were (it returns, or the exception of
    [findclosest] leaves it). *)
Theorem lexicon_run_never_edits
    (levenshtein : string -> string -> Z -> Z) (G : Globals)
    (self : LexiconModule.t) (word : FoliaWord) (sh : Shared) :
  LexiconModule._cache self = None \/ LexiconModule._cache self = Some [] ->
  final (LexiconModule.run levenshtein G word (self, sh)) = (self, sh).
Proof.
  intros Hcache. unfold LexiconModule.run, seq, zoom. simpl.
  destruct (findclosest_unset_or_empty levenshtein (word_text word) self
              Hcache) as [->|[e ->]]; reflexivity.
Qed.

Lemma lexicon_run_never_edits_witness :
  (LexiconModule._cache loaded_lexicon_module = None
   \/ LexiconModule._cache loaded_lexicon_module = Some [])
  /\ final (LexiconModule.run constant_distance globals_for_editing
              word_documant (loaded_lexicon_module, free_lock))
     = (loaded_lexicon_module, free_lock).
Proof.
  split; [left; reflexivity|].
  apply (lexicon_run_never_edits constant_distance globals_for_editing
           loaded_lexicon_module word_documant free_lock).
  left. reflexivity.
Defined.

(** [server_handler] of a module whose cache is unset or empty answers
    ["false"] or raises: it never sends a list of suggestions, and the
    module is as it was. *)
Theorem server_handler_answers_false
    (levenshtein : string -> string -> Z -> Z)
    (dumps : LexiconModule.Results -> string) (word : string)
    (self : LexiconModule.t) :
  LexiconModule._cache self = None \/ LexiconModule._cache self = Some [] ->
  LexiconModule.server_handler levenshtein dumps word self
  = Returns "false" self
  \/ exists e,
       LexiconModule.server_handler levenshtein dumps word self
       = Raises e self.
Proof.
  intros Hcache. unfold LexiconModule.server_handler, seq.
  destruct (findclosest_unset_or_empty levenshtein word self Hcache)
    as [->|[e ->]]; eauto.
Qed.

Lemma server_handler_answers_false_witness :
  (LexiconModule._cache loaded_lexicon_module = None
   \/ LexiconModule._cache loaded_lexicon_module = Some [])
  /\ (LexiconModule.server_handler constant_distance (fun _ => "[]")
        "document" loaded_lexicon_module
      = Returns "false" loaded_lexicon_module
      \/ exists e,
           LexiconModule.server_handler constant_distance (fun _ => "[]")
             "document" loaded_lexicon_module
           = Raises e loaded_lexicon_module).
Proof.
  split; [left; reflexivity|].
  apply (server_handler_answers_false constant_distance (fun _ => "[]")
           "document" loaded_lexicon_module).
  left. reflexivity.
Defined.

(** The module after [load], asked for a word: the answer is the
    exception of line 87. *)
Example server_handler_loaded_module :
  LexiconModule.server_handler constant_distance (fun _ => "[]") "document"
    loaded_lexicon_module
  = Raises (AttributeError "_cache") loaded_lexicon_module.
Proof. vm_compute. reflexivity. Qed.

Lemma communicate_ends_in_exception (fuel : nat) (G : Globals) (msg : string)
    (w : LineByLineClient.t) :
  exists e w', LineByLineClient.communicate (S fuel) G msg w = Raises e w'.
Proof.
  unfold LineByLineClient.communicate, LineByLineClient.send,
    LineByLineClient.connect, seq, lift, global, attr.
  destruct (LineByLineClient.connected w) eqn:Hc.
  - destruct (last_byte (encode msg)); [|eauto].
    destruct (LineByLineClient.sock w); [|eauto].
    unfold LineByLineClient.on_stream, zoom, sendall; cbn beta iota.
    do 2 eexists. rewrite receive_raises. reflexivity.
  - destruct (g_host G); [|eauto].
    destruct (g_port G); [|eauto].
    destruct (last_byte (encode msg)); [|eauto].
    simpl. destruct (LineByLineClient.sock w); eauto.
Qed.

(** [runclient] of the lexicon module always ends in the exception of
    the round trip: the answer is never parsed and the lock and the
    document are left as they were. *)
Theorem lexicon_runclient_raises (loads : string -> res LexiconModule.Found)
    (fuel : nat) (G : Globals) (self : LexiconModule.t) (word : FoliaWord)
    (client : LineByLineClient.t) (sh : Shared) :
  exists e client',
    LexiconModule.runclient loads (S fuel) G self word (client, sh)
    = Raises e (client', sh).
Proof.
  unfold LexiconModule.runclient. unfold seq at 1. unfold zoom. simpl.
  destruct (communicate_ends_in_exception fuel G (word_text word) client)
    as (e & client' & ->).
  eauto.
Qed.

(** *** LexiconModule.cache *)

Lemma setitem_length {V} (d : list (string * V)) (key : string) (v : V) :
  length (LexiconModule.setitem d key v)
  = if LexiconModule.contains d key then length d else S (length d).
Proof.
  unfold LexiconModule.contains.
  induction d as [|[k old] d IH]; simpl; [reflexivity|].
  destruct (decide (k = key)) as [->|Hne]; simpl.
  - rewrite bool_decide_eq_true_2 by apply list_elem_of_here. reflexivity.
  - rewrite IH. destruct (bool_decide (key ∈ map fst d)) eqn:Hin.
    + apply bool_decide_eq_true in Hin.
      rewrite bool_decide_eq_true_2 by (by apply list_elem_of_further).
      reflexivity.
    + apply bool_decide_eq_false in Hin.
      rewrite bool_decide_eq_false_2; [reflexivity|].
      intros [Heq|Hin']%elem_of_cons; [congruence|contradiction].
Qed.

Lemma setitem_lookup {V} (d : list (string * V)) (key : string) (v : V) :
  LexiconModule.lookup_item (LexiconModule.setitem d key v) key = Some v.
Proof.
  induction d as [|[k old] d IH]; simpl.
  - by rewrite decide_True.
  - destruct (decide (k = key)) as [->|Hne]; simpl.
    + by rewrite decide_True.
    + by rewrite decide_False.
Qed.

Lemma setitem_new {V} (d : list (string * V)) (key : string) (v : V) :
  LexiconModule.contains d key = false ->
  LexiconModule.setitem d key v = d ++ [(key, v)].
Proof.
  unfold LexiconModule.contains. intros Hnot%bool_decide_eq_false.
  induction d as [|[k old] d IH]; simpl; [reflexivity|].
  simpl in Hnot. rewrite decide_False.
  - rewrite IH; [reflexivity|]. intros Hin. apply Hnot. by right.
  - intros ->. apply Hnot. by left.
Qed.

(** [cache] on an object whose cache has been assigned and whose
    settings hold a [cachesize]. *)
Lemma cache_assigned (word : string) (results : LexiconModule.Results)
    (self : LexiconModule.t)
    (entries : list (string * LexiconModule.Results)) (v : Setting) :
  LexiconModule._cache self = Some entries ->
  Mod.settings (LexiconModule.base self) !! "cachesize" = Some v ->
  LexiconModule.cache word results self
  = match (if LexiconModule.len_equals (length entries) v
           then LexiconModule.popitem_first entries else Ok entries) with
    | Ok c =>
        Returns tt
          {| LexiconModule.base := LexiconModule.base self;
             LexiconModule.lexicon := LexiconModule.lexicon self;
             LexiconModule._cache :=
               Some (LexiconModule.setitem c word results) |}
    | Raise e => Raises e self
    end.
Proof.
  intros Hcache Hsize.
  unfold LexiconModule.cache, seq, lift, ret, attr, Mod.getitem.
  rewrite Hcache, Hsize.
  destruct (LexiconModule.len_equals (length entries) v); [|reflexivity].
  destruct entries; reflexivity.
Qed.

(** On an object whose cache has been assigned and holds at most
    [settings['cachesize']] entries, that setting being an integer of
    at least one, [cache] returns, the cache holds at most that many
    entries, the word is cached with the results given, and the lexicon
    and the settings are as they were. *)
Theorem cache_stays_within_cachesize (word : string)
    (results : LexiconModule.Results) (self : LexiconModule.t)
    (entries : list (string * LexiconModule.Results)) (cachesize : Z) :
  LexiconModule._cache self = Some entries ->
  Mod.settings (LexiconModule.base self) !! "cachesize"
  = Some (SInt cachesize) ->
  (0 < cachesize)%Z ->
  (Z.of_nat (length entries) <= cachesize)%Z ->
  exists entries',
    LexiconModule.cache word results self
    = Returns tt
        {| LexiconModule.base := LexiconModule.base self;
           LexiconModule.lexicon := LexiconModule.lexicon self;
           LexiconModule._cache := Some entries' |}
    /\ (Z.of_nat (length entries') <= cachesize)%Z
    /\ LexiconModule.lookup_item entries' word = Some results.
Proof.
  intros Hcache Hsize Hpos Hlen.
  rewrite (cache_assigned word results self entries _ Hcache Hsize).
  unfold LexiconModule.len_equals.
  destruct (Z.eqb_spec (Z.of_nat (length entries)) cachesize) as [Heq|Hne].
  - destruct entries as [|oldest others]; [simpl in Heq; lia|].
    eexists. split; [reflexivity|].
    split; [|apply setitem_lookup].
    rewrite setitem_length. simpl in Hlen.
    destruct (LexiconModule.contains others word); lia.
  - eexists. split; [reflexivity|].
    split; [|apply setitem_lookup].
    rewrite setitem_length.
    destruct (LexiconModule.contains entries word); lia.
Qed.

Lemma cache_stays_within_cachesize_witness :
  LexiconModule._cache full_cache_module
  = Some [("documant", [("document", 1%Z)]);
          ("corection", [("correction", 1%Z)])]
  /\ Mod.settings (LexiconModule.base full_cache_module) !! "cachesize"
     = Some (SInt 2)
  /\ exists entries',
       LexiconModule.cache "lexcion" [("lexicon", 2%Z)] full_cache_module
       = Returns tt
           {| LexiconModule.base := LexiconModule.base full_cache_module;
              LexiconModule.lexicon := LexiconModule.lexicon full_cache_module;
              LexiconModule._cache := Some entries' |}
       /\ (Z.of_nat (length entries') <= 2)%Z
       /\ LexiconModule.lookup_item entries' "lexcion"
          = Some [("lexicon", 2%Z)].
Proof.
  split; [reflexivity|]. split; [reflexivity|].
  apply (cache_stays_within_cachesize "lexcion" [("lexicon", 2%Z)]
           full_cache_module
           [("documant", [("document", 1%Z)]);
            ("corection", [("correction", 1%Z)])] 2).
  - reflexivity.
  - reflexivity.
  - reflexivity.
  - simpl. lia.
Defined.

(** A cache that holds exactly [settings['cachesize']] entries gives up
    its oldest entry for a word that is not among the others: these
    keep their order and the new entry comes last. *)
Theorem cache_evicts_oldest (word : string)
    (results : LexiconModule.Results) (self : LexiconModule.t)
    (oldest : string * LexiconModule.Results)
    (others : list (string * LexiconModule.Results)) :
  LexiconModule._cache self = Some (oldest :: others) ->
  Mod.settings (LexiconModule.base self) !! "cachesize"
  = Some (SInt (Z.of_nat (length (oldest :: others)))) ->
  LexiconModule.contains others word = false ->
  LexiconModule.cache word results self
  = Returns tt
      {| LexiconModule.base := LexiconModule.base self;
         LexiconModule.lexicon := LexiconModule.lexicon self;
         LexiconModule._cache := Some (others ++ [(word, results)]) |}.
Proof.
  intros Hcache Hsize Hnew.
  rewrite (cache_assigned word results self _ _ Hcache Hsize).
  unfold LexiconModule.len_equals. rewrite Z.eqb_refl.
  simpl. by rewrite setitem_new.
Qed.

Lemma cache_evicts_oldest_witness :
  LexiconModule._cache full_cache_module
  = Some [("documant", [("document", 1%Z)]);
          ("corection", [("correction", 1%Z)])]
  /\ LexiconModule.cache "lexcion" [("lexicon", 2%Z)] full_cache_module
     = Returns tt
         {| LexiconModule.base := LexiconModule.base full_cache_module;
            LexiconModule.lexicon := LexiconModule.lexicon full_cache_module;
            LexiconModule._cache :=
              Some ([("corection", [("correction", 1%Z)])]
                    ++ [("lexcion", [("lexicon", 2%Z)])]) |}.
Proof.
  split; [reflexivity|].
  apply (cache_evicts_oldest "lexcion" [("lexicon", 2%Z)] full_cache_module
           ("documant", [("document", 1%Z)])
           [("corection", [("correction", 1%Z)])]).
  - reflexivity.
  - reflexivity.
  - reflexivity.
Defined.

(** On the object that [load] leaves in the namespace of [lexicon.py],
    [cache] raises: there is no cache to write to. *)
Example cache_on_loaded_module :
  LexiconModule.cache "lexcion" [("lexicon", 2%Z)] loaded_lexicon_module
  = Raises (AttributeError "_cache") loaded_lexicon_module.
Proof. vm_compute. reflexivity. Qed.

(** An empty cache whose length equals [settings['cachesize']]: the
    call of [popitem] raises. *)
Example cache_popitem_on_empty :
  LexiconModule.cache "lexcion" [("lexicon", 2%Z)]
    {| LexiconModule.base :=
         Mod.init_ "LexiconModule" Word "lexicon"
           (<["cachesize" := SInt 0]> lexicon_settings);
       LexiconModule.lexicon := Some [];
       LexiconModule._cache := Some [] |}
  = Raises (KeyError "dictionary is empty")
      {| LexiconModule.base :=
           Mod.init_ "LexiconModule" Word "lexicon"
             (<["cachesize" := SInt 0]> lexicon_settings);
         LexiconModule.lexicon := Some [];
         LexiconModule._cache := Some [] |}.
Proof. vm_compute. reflexivity. Qed.

(** *** LexiconModule.verifysettings *)

Lemma default_if_falsy_ok (key : string) (v : Setting)
    (d d' : gmap string Setting) :
  LexiconModule.default_if_falsy key v d = Ok d' ->
  (exists old, d !! key = Some old
               /\ d' !! key = Some (if Mod.truthy old then old else v))
  /\ (forall key', key' <> key -> d' !! key' = d !! key').
Proof.
  unfold LexiconModule.default_if_falsy, Mod.getitem.
  destruct (d !! key) as [old|] eqn:Hold; simpl; [|discriminate].
  intros [= <-]. split.
  - exists old. split; [reflexivity|].
    destruct (Mod.truthy old); [exact Hold|apply lookup_insert_eq].
  - intros key' Hne. destruct (Mod.truthy old); [reflexivity|].
    by apply lookup_insert_ne.
Qed.

Lemma delimiter_setting_other (d d' : gmap string Setting) (key : string) :
  LexiconModule.delimiter_setting d = Ok d' ->
  key <> "delimiter" -> d' !! key = d !! key.
Proof.
  unfold LexiconModule.delimiter_setting. intros Hd Hne.
  destruct (d !! "delimiter") as [[s| | | | |]|]; try discriminate.
  - destruct (bool_decide (LexiconModule.lower s = "space"));
      [|destruct (bool_decide (LexiconModule.lower s = "tab"))];
      injection Hd as <-; try reflexivity; by apply lookup_insert_ne.
  - injection Hd as <-. by apply lookup_insert_ne.
Qed.

Lemma lexicon_verifysettings_each (self m : Mod.t) :
  LexiconModule.verifysettings self = Ok m ->
  setting_verified self m "maxdistance" (SInt 2)
  /\ setting_verified self m "medld" (SInt 1)
  /\ setting_verified self m "maxlength" (SInt 15)
  /\ setting_verified self m "minlength" (SInt 5)
  /\ setting_verified self m "minfreqthreshold" (SInt 10000)
  /\ setting_verified self m "maxnrclosest" (SInt 5)
  /\ setting_verified self m "cachesize" (SInt 1000)
  /\ setting_verified self m "suffixes" (SStrs [])
  /\ setting_verified self m "prefixes" (SStrs []).
Proof.
  unfold LexiconModule.verifysettings, setting_verified.
  destruct (verifysettings_defaults self) as (_ & _ & _ & _ & _ & Hbase).
  destruct (LexiconModule.delimiter_setting _) as [d0|] eqn:H0;
    [|discriminate]. simpl.
  pose proof (fun key => delimiter_setting_other _ _ key H0) as Hd0.
  set (dr := Mod.setdefault "reversedformat" (SBool false) d0).
  assert (Hdr : forall key, key <> "reversedformat" -> dr !! key = d0 !! key)
    by (intros key Hne; by apply setdefault_lookup_ne).
  destruct (LexiconModule.default_if_falsy "maxdistance" _ dr) as [d1|] eqn:H1;
    [|discriminate]. simpl.
  destruct (LexiconModule.default_if_falsy "medld" _ d1) as [d2|] eqn:H2;
    [|discriminate]. simpl.
  destruct (LexiconModule.default_if_falsy "maxlength" _ d2) as [d3|] eqn:H3;
    [|discriminate]. simpl.
  destruct (LexiconModule.default_if_falsy "minlength" _ d3) as [d4|] eqn:H4;
    [|discriminate]. simpl.
  destruct (LexiconModule.default_if_falsy "minfreqthreshold" _ d4)
    as [d5|] eqn:H5; [|discriminate]. simpl.
  destruct (LexiconModule.default_if_falsy "maxnrclosest" _ d5)
    as [d6|] eqn:H6; [|discriminate]. simpl.
  destruct (LexiconModule.default_if_falsy "cachesize" _ d6) as [d7|] eqn:H7;
    [|discriminate]. simpl.
  destruct (LexiconModule.default_if_falsy "suffixes" _ d7) as [d8|] eqn:H8;
    [|discriminate]. simpl.
  destruct (LexiconModule.default_if_falsy "prefixes" _ d8) as [d9|] eqn:H9;
    [|discriminate]. simpl.
  intros [= <-]. simpl.
  apply default_if_falsy_ok in H1 as ((o1 & Hi1 & Ho1) & Hk1).
  apply default_if_falsy_ok in H2 as ((o2 & Hi2 & Ho2) & Hk2).
  apply default_if_falsy_ok in H3 as ((o3 & Hi3 & Ho3) & Hk3).
  apply default_if_falsy_ok in H4 as ((o4 & Hi4 & Ho4) & Hk4).
  apply default_if_falsy_ok in H5 as ((o5 & Hi5 & Ho5) & Hk5).
  apply default_if_falsy_ok in H6 as ((o6 & Hi6 & Ho6) & Hk6).
  apply default_if_falsy_ok in H7 as ((o7 & Hi7 & Ho7) & Hk7).
  apply default_if_falsy_ok in H8 as ((o8 & Hi8 & Ho8) & Hk8).
  apply default_if_falsy_ok in H9 as ((o9 & Hi9 & Ho9) & Hk9).
  rewrite Hdr, Hd0, Hbase in Hi1 by discriminate.
  rewrite Hk1, Hdr, Hd0, Hbase in Hi2 by discriminate.
  rewrite Hk2, Hk1, Hdr, Hd0, Hbase in Hi3 by discriminate.
  rewrite Hk3, Hk2, Hk1, Hdr, Hd0, Hbase in Hi4 by discriminate.
  rewrite Hk4, Hk3, Hk2, Hk1, Hdr, Hd0, Hbase in Hi5 by discriminate.
  rewrite Hk5, Hk4, Hk3, Hk2, Hk1, Hdr, Hd0, Hbase in Hi6 by discriminate.
  rewrite Hk6, Hk5, Hk4, Hk3, Hk2, Hk1, Hdr, Hd0, Hbase in Hi7
    by discriminate.
  rewrite Hk7, Hk6, Hk5, Hk4, Hk3, Hk2, Hk1, Hdr, Hd0, Hbase in Hi8
    by discriminate.
  rewrite Hk8, Hk7, Hk6, Hk5, Hk4, Hk3, Hk2, Hk1, Hdr, Hd0, Hbase in Hi9
    by discriminate.
  repeat split.
  - exists o1. split; [exact Hi1|].
    rewrite Hk9, Hk8, Hk7, Hk6, Hk5, Hk4, Hk3, Hk2 by discriminate. exact Ho1.
  - exists o2. split; [exact Hi2|].
    rewrite Hk9, Hk8, Hk7, Hk6, Hk5, Hk4, Hk3 by discriminate. exact Ho2.
  - exists o3. split; [exact Hi3|].
    rewrite Hk9, Hk8, Hk7, Hk6, Hk5, Hk4 by discriminate. exact Ho3.
  - exists o4. split; [exact Hi4|].
    rewrite Hk9, Hk8, Hk7, Hk6, Hk5 by discriminate. exact Ho4.
  - exists o5. split; [exact Hi5|].
    rewrite Hk9, Hk8, Hk7, Hk6 by discriminate. exact Ho5.
  - exists o6. split; [exact Hi6|].
    rewrite Hk9, Hk8, Hk7 by discriminate. exact Ho6.
  - exists o7. split; [exact Hi7|].
    rewrite Hk9, Hk8 by discriminate. exact Ho7.
  - exists o8. split; [exact Hi8|].
    rewrite Hk9 by discriminate. exact Ho8.
  - exists o9. split; [exact Hi9|exact Ho9].
Qed.

(** A call of [LexiconModule.verifysettings] that completes was given
    all nine settings it reads, and leaves each with the caller's value
    if that value is true and with the default if it is false: a
    [cachesize] or [maxdistance] of [0] becomes [1000] or [2]. *)
Theorem lexicon_verifysettings_replaces_false_values (self m : Mod.t) :
  LexiconModule.verifysettings self = Ok m ->
  setting_verified self m "maxdistance" (SInt 2)
  /\ setting_verified self m "medld" (SInt 1)
  /\ setting_verified self m "maxlength" (SInt 15)
  /\ setting_verified self m "minlength" (SInt 5)
  /\ setting_verified self m "minfreqthreshold" (SInt 10000)
  /\ setting_verified self m "maxnrclosest" (SInt 5)
  /\ setting_verified self m "cachesize" (SInt 1000)
  /\ setting_verified self m "suffixes" (SStrs [])
  /\ setting_verified self m "prefixes" (SStrs []).
Proof. apply lexicon_verifysettings_each. Qed.

Lemma lexicon_verifysettings_replaces_false_values_witness :
  setting_verified zero_settings_module zero_settings_verified
    "maxdistance" (SInt 2)
  /\ setting_verified zero_settings_module zero_settings_verified
       "medld" (SInt 1)
  /\ setting_verified zero_settings_module zero_settings_verified
       "maxlength" (SInt 15)
  /\ setting_verified zero_settings_module zero_settings_verified
       "minlength" (SInt 5)
  /\ setting_verified zero_settings_module zero_settings_verified
       "minfreqthreshold" (SInt 10000)
  /\ setting_verified zero_settings_module zero_settings_verified
       "maxnrclosest" (SInt 5)
  /\ setting_verified zero_settings_module zero_settings_verified
       "cachesize" (SInt 1000)
  /\ setting_verified zero_settings_module zero_settings_verified
       "suffixes" (SStrs [])
  /\ setting_verified zero_settings_module zero_settings_verified
       "prefixes" (SStrs []).
Proof.
  apply (lexicon_verifysettings_replaces_false_values zero_settings_module
           zero_settings_verified).
  vm_compute. reflexivity.
Defined.

Example zero_cachesize_becomes_1000 :
  Mod.settings zero_settings_verified !! "cachesize" = Some (SInt 1000)
  /\ Mod.settings zero_settings_verified !! "maxdistance" = Some (SInt 2)
  /\ Mod.settings zero_settings_verified !! "minlength" = Some (SInt 3)
  /\ Mod.settings zero_settings_verified !! "delimiter"
     = Some (SStr LexiconModule.tab).
Proof. repeat split; vm_compute; reflexivity. Qed.

(** [LexiconModule.verifysettings] raises when one of the nine settings
    it reads is not given. *)
Theorem lexicon_verifysettings_needs_every_key (self : Mod.t) (key : string) :
  key ∈ LexiconModule.required_settings ->
  Mod.settings self !! key = None ->
  exists e, LexiconModule.verifysettings self = Raise e.
Proof.
  intros Hkey Hnone.
  destruct (LexiconModule.verifysettings self) as [m|e] eqn:Hv; [|eauto].
  exfalso.
  pose proof (lexicon_verifysettings_each self m Hv) as Hall.
  unfold setting_verified in Hall.
  unfold LexiconModule.required_settings in Hkey.
  repeat (apply elem_of_cons in Hkey as [->|Hkey];
          [ destruct Hall as (H1 & H2 & H3 & H4 & H5 & H6 & H7 & H8 & H9);
            first [ destruct H1 as (o & Ho & _); congruence
                  | destruct H2 as (o & Ho & _); congruence
                  | destruct H3 as (o & Ho & _); congruence
                  | destruct H4 as (o & Ho & _); congruence
                  | destruct H5 as (o & Ho & _); congruence
                  | destruct H6 as (o & Ho & _); congruence
                  | destruct H7 as (o & Ho & _); congruence
                  | destruct H8 as (o & Ho & _); congruence
                  | destruct H9 as (o & Ho & _); congruence ]
          | ]).
  by apply elem_of_nil in Hkey.
Qed.

Lemma lexicon_verifysettings_needs_every_key_witness :
  exists e,
    LexiconModule.verifysettings (Mod.init_ "LexiconModule" Word "lexicon" ∅)
    = Raise e.
Proof.
  apply (lexicon_verifysettings_needs_every_key
           (Mod.init_ "LexiconModule" Word "lexicon" ∅) "maxdistance").
  - apply list_elem_of_here.
  - vm_compute. reflexivity.
Defined.

(** ** Corrector.run *)

(** With the names [gecco.py] binds, a call of [run] initialises every
    module, in the order of the registry, and then raises: it never
    reaches [queue.join()], finishes no module and does not save the
    document. *)
Theorem run_raises_after_init (self : Corrector.t) (foliadoc : FoliaDoc) :
  (exists e,
      Corrector.script gecco_globals self foliadoc
      = init_actions self ++ [ARaise e])
  /\ (AJoin ∉ Corrector.script gecco_globals self foliadoc)
  /\ (ASave ∉ Corrector.script gecco_globals self foliadoc)
  /\ (forall module,
         AFinish module ∉ Corrector.script gecco_globals self foliadoc).
Proof.
  assert (Hshape : exists e,
             Corrector.script gecco_globals self foliadoc
             = init_actions self ++ [ARaise e]).
  { rewrite script_shape. simpl.
    destruct (Corrector.thread_count self) as [[|n]|e]; eauto. }
  split; [exact Hshape|]. destruct Hshape as [e ->].
  assert (Hinit : forall a, a ∈ init_actions self ++ [ARaise e] ->
                            (exists msg, a = ALog msg)
                            \/ (exists m, a = AInit m) \/ a = ARaise e).
  { intros a Ha. unfold init_actions in Ha.
    apply elem_of_app in Ha as [Ha|Ha].
    - apply elem_of_cons in Ha as [->|Ha]; [eauto|].
      apply elem_of_app in Ha as [Ha|Ha].
      + apply list_elem_of_In, in_map_iff in Ha as (m & <- & _). eauto.
      + apply list_elem_of_singleton in Ha as ->. eauto.
    - apply list_elem_of_singleton in Ha as ->. eauto. }
  split; [|split; [|intros module]]; intros H%Hinit;
    destruct H as [[? ?]|[[? ?]|?]]; discriminate.
Qed.

Lemma puts_put_actions (kind : UnitKind) (data : Data) (ms : list Mod.t) :
  Corrector.puts (put_actions kind data ms)
  = (fun m => (m, data)) <$> filter (fun m => Mod.UNIT m = kind) ms.
Proof.
  unfold put_actions. induction ms as [|m ms IH]; simpl; [reflexivity|].
  rewrite puts_app, IH, filter_cons.
  destruct (decide (Mod.UNIT m = kind)); reflexivity.
Qed.

Lemma puts_flat_map {A} (f : A -> list Action) (l : list A) :
  Corrector.puts (flat_map f l) = l ≫= (fun x => Corrector.puts (f x)).
Proof.
  induction l as [|x l IH]; simpl; [reflexivity|].
  by rewrite puts_app, IH.
Qed.

Lemma puts_final_actions (self : Corrector.t) :
  Corrector.puts (final_actions self) = [].
Proof.
  unfold final_actions. simpl. rewrite puts_app. simpl.
  rewrite app_nil_r. induction (Corrector.iter self); simpl; auto.
Qed.

Lemma elem_of_select (foliadoc : FoliaDoc) (kind : UnitKind) (data : Data) :
  data ∈ select foliadoc kind
  <-> exists e, data = Element kind e /\ (kind, e) ∈ elements foliadoc.
Proof.
  unfold select. rewrite list_elem_of_omap. split.
  - intros ([k e] & Hin & Hsome). simpl in Hsome.
    destruct (decide (k = kind)) as [->|]; [|discriminate].
    injection Hsome as <-. eauto.
  - intros (e & -> & Hin). exists (kind, e). split; [exact Hin|].
    simpl. by rewrite decide_True.
Qed.

Lemma NoDup_select (foliadoc : FoliaDoc) (kind : UnitKind) :
  NoDup (elements foliadoc) -> NoDup (select foliadoc kind).
Proof.
  unfold select. induction 1 as [|[k e] l Hnot _ IH]; simpl; [constructor|].
  destruct (decide (k = kind)) as [->|]; [|exact IH].
  apply NoDup_cons. split; [|exact IH].
  intros ([k' e'] & Hin & Hsome)%list_elem_of_omap. simpl in Hsome.
  destruct (decide (k' = kind)) as [->|]; [|discriminate].
  injection Hsome as ->. contradiction.
Qed.

Lemma elem_of_items (kind : UnitKind) (data d : Data) (ms : list Mod.t)
    (m : Mod.t) :
  (m, d) ∈ (fun m => (m, data)) <$> filter (fun m => Mod.UNIT m = kind) ms
  <-> d = data /\ m ∈ ms /\ Mod.UNIT m = kind.
Proof.
  rewrite list_elem_of_fmap. split.
  - intros (x & [= -> ->] & [Hk Hx]%list_elem_of_filter). auto.
  - intros (-> & Hm & Hk). exists m. split; [reflexivity|].
    by apply list_elem_of_filter.
Qed.

Lemma NoDup_items (kind : UnitKind) (data : Data) (ms : list Mod.t) :
  NoDup ms ->
  NoDup ((fun m => (m, data)) <$> filter (fun m => Mod.UNIT m = kind) ms).
Proof.
  intros Hms. apply NoDup_fmap_2_strong; [|by apply NoDup_filter].
  intros x y _ _ [= ->]. reflexivity.
Qed.

(** The items [run] enqueues for the elements of one kind. *)
Lemma elem_of_kind_items (self : Corrector.t) (foliadoc : FoliaDoc)
    (kind : UnitKind) (m : Mod.t) (d : Data) :
  (m, d) ∈ Corrector.puts
             (if decide (kind = Document) then []
              else ALog "Queuing modules handling elements"
                     :: flat_map (fun data =>
                                    put_actions kind data (Corrector.iter self))
                                 (select foliadoc kind))
  <-> kind <> Document
      /\ m ∈ Corrector.iter self /\ Mod.UNIT m = kind
      /\ exists e, d = Element kind e /\ (kind, e) ∈ elements foliadoc.
Proof.
  destruct (decide (kind = Document)) as [->|Hne].
  - simpl. split; [by intros ?%elem_of_nil|by intros []].
  - change (Corrector.puts (ALog ?msg :: ?l)) with (Corrector.puts l).
    rewrite puts_flat_map, list_elem_of_bind. split.
    + intros (data & Hin & Hdata).
      rewrite puts_put_actions in Hin.
      apply elem_of_items in Hin as (-> & Hm & Hk).
      apply elem_of_select in Hdata. auto.
    + intros (_ & Hm & Hk & e & -> & He). exists (Element kind e). split.
      * rewrite puts_put_actions. by apply elem_of_items.
      * apply elem_of_select. eauto.
Qed.

Lemma NoDup_kind_items (self : Corrector.t) (foliadoc : FoliaDoc)
    (kind : UnitKind) :
  NoDup (Corrector.iter self) -> NoDup (elements foliadoc) ->
  NoDup (Corrector.puts
           (if decide (kind = Document) then []
            else ALog "Queuing modules handling elements"
                   :: flat_map (fun data =>
                                  put_actions kind data (Corrector.iter self))
                               (select foliadoc kind))).
Proof.
  intros Hms Hel. destruct (decide (kind = Document)); [constructor|].
  change (Corrector.puts (ALog ?msg :: ?l)) with (Corrector.puts l).
  rewrite puts_flat_map. apply NoDup_bind.
  - intros d1 d2 [m d] _ _ H1 H2. rewrite puts_put_actions in H1, H2.
    apply elem_of_items in H1 as (-> & _). by apply elem_of_items in H2 as (-> & _).
  - intros data _. rewrite puts_put_actions. by apply NoDup_items.
  - by apply NoDup_select.
Qed.

(** The enqueueing loops of [run] are right when they are reached: in a
    call without threads in which the name [units] is bound to a set of
    kinds, [run] enqueues an item for a module and a unit exactly when
    the module is registered, its kind is in [units] and the unit is the
    module's unit of the document; and it enqueues no item twice. *)
Theorem run_enqueues_each_pair_once (G : Globals) (self : Corrector.t)
    (foliadoc : FoliaDoc) (units : list UnitKind) :
  Corrector.thread_count self = Ok 0 ->
  g_units G = Some units ->
  NoDup units ->
  NoDup (Corrector.iter self) ->
  NoDup (elements foliadoc) ->
  NoDup (Corrector.puts (Corrector.script G self foliadoc))
  /\ forall m d,
       (m, d) ∈ Corrector.puts (Corrector.script G self foliadoc)
       <-> m ∈ Corrector.iter self /\ Mod.UNIT m ∈ units
           /\ unit_for foliadoc m d.
Proof.
  intros Hthreads Hunits Hnd Hms Hel.
  rewrite script_shape, Hthreads, Hunits.
  rewrite !puts_app, puts_init_actions, puts_final_actions, app_nil_r.
  simpl. unfold queue_actions. rewrite puts_app.
  unfold element_part. rewrite puts_flat_map.
  assert (Hdoc : forall m d,
             (m, d) ∈ Corrector.puts (document_part self foliadoc units)
             <-> Document ∈ units /\ d = WholeDocument (doc_id foliadoc)
                 /\ m ∈ Corrector.iter self /\ Mod.UNIT m = Document).
  { intros m d. unfold document_part.
    destruct (decide (Document ∈ units)) as [Hin|Hnot].
    - change (Corrector.puts (ALog ?msg :: ?l)) with (Corrector.puts l).
      rewrite puts_put_actions, elem_of_items. tauto.
    - simpl. split; [by intros ?%elem_of_nil|tauto]. }
  split.
  - apply NoDup_app. split; [|split].
    + unfold document_part. destruct (decide (Document ∈ units));
        [|constructor].
      change (Corrector.puts (ALog ?msg :: ?l)) with (Corrector.puts l).
      rewrite puts_put_actions. by apply NoDup_items.
    + intros [m d] (_ & -> & _)%Hdoc (kind & Hin & _)%list_elem_of_bind.
      apply elem_of_kind_items in Hin as (_ & _ & _ & e & He & _).
      discriminate.
    + apply NoDup_bind; [| |exact Hnd].
      * intros k1 k2 [m d] _ _ H1 H2.
        apply elem_of_kind_items in H1 as (_ & _ & <- & _).
        by apply elem_of_kind_items in H2 as (_ & _ & <- & _).
      * intros kind _. by apply NoDup_kind_items.
  - intros m d. rewrite elem_of_app, Hdoc, list_elem_of_bind. split.
    + intros [(Hin & -> & Hm & Hk)|(kind & Hin & Hkind)].
      * simpl. rewrite Hk. auto.
      * apply elem_of_kind_items in Hin as (Hne & Hm & <- & e & -> & He).
        simpl. auto.
    + intros (Hm & Hk & Hfor). destruct d as [i|kind e]; simpl in Hfor.
      * destruct Hfor as [Hdocu ->]. left. rewrite Hdocu in Hk. auto.
      * destruct Hfor as (-> & Hne & He). right.
        exists (Mod.UNIT m). split; [|exact Hk].
        apply elem_of_kind_items. eauto 10.
Qed.

Lemma run_enqueues_each_pair_once_witness :
  NoDup (Corrector.puts
           (Corrector.script globals_with_units (word_corrector 0)
              two_word_document))
  /\ forall m d,
       (m, d) ∈ Corrector.puts
                  (Corrector.script globals_with_units (word_corrector 0)
                     two_word_document)
       <-> m ∈ Corrector.iter (word_corrector 0) /\ Mod.UNIT m ∈ [Word]
           /\ unit_for two_word_document m d.
Proof.
  apply (run_enqueues_each_pair_once globals_with_units (word_corrector 0)
           two_word_document [Word]).
  - reflexivity.
  - reflexivity.
  - apply NoDup_singleton.
  - apply NoDup_singleton.
  - repeat (apply NoDup_cons; split;
            [intros H; repeat (apply elem_of_cons in H as [H|H];
                               [discriminate|]);
             by apply elem_of_nil in H|]).
    constructor.
Defined.

Example run_two_words_enqueued :
  Corrector.puts
    (Corrector.script globals_with_units (word_corrector 0) two_word_document)
  = [(local_module "logging", Element Word "d.s.1.w.1");
     (local_module "logging", Element Word "d.s.1.w.2")].
Proof. vm_compute. reflexivity. Qed.

(** ** ProcessorThread.run *)

Section WorkerLoop.

Variable module_run : Mod.t -> Data -> eff Shared unit.
Variable module_runclient : Mod.t -> ClientObj -> Data -> eff Shared unit.

Abbreviation run_item' :=
  (ProcessorThread.run_item module_run module_runclient).
Abbreviation run' := (ProcessorThread.run module_run module_runclient).

Lemma worker_run_not_returned (fuel : nat) (G : Globals)
    (w : ProcessorThread.t) :
  ProcessorThread.stop w = false ->
  forall w', run' fuel G w <> Returns tt w'.
Proof.
  revert w. induction fuel as [|fuel IH]; intros w Hstop w'; [discriminate|].
  simpl. rewrite Hstop. unfold seq at 1. unfold lift, global.
  destruct (g_q G) as [q|]; [|discriminate]. simpl.
  unfold seq at 1. unfold ProcessorThread.q_empty.
  destruct (bool_decide (ProcessorThread.queue w = [])) eqn:Hempty; simpl;
    [by apply IH|].
  unfold seq at 1. unfold ProcessorThread.q_get.
  destruct (ProcessorThread.queue w) as [|item rest] eqn:Hqueue;
    [discriminate|].
  unfold seq at 1.
  match goal with
  | |- context [run_item' G item ?w1] =>
      destruct (run_item_keeps_queue module_run module_runclient G item w1
                  (final (run_item' G item w1)) eq_refl) as (_ & _ & Hstop1);
      destruct (run_item' G item w1) as [[] w2|e w2|w2|w2] eqn:Hitem;
      try discriminate
  end.
  simpl in Hstop1. unfold seq at 1. unfold ProcessorThread.q_task_done.
  destruct (ProcessorThread.unfinished w2); [discriminate|].
  apply IH. simpl. congruence.
Qed.

(** While [self.stop] is [False] the loop of a worker does not end by
    returning: however many rounds it is given, it raises, waits, or has
    rounds left to do.  ([run] does not assign [stop], and the method
    [stop] is hidden behind the attribute.) *)
Theorem worker_never_returns (fuel : nat) (G : Globals)
    (w : ProcessorThread.t) :
  ProcessorThread.stop w = false ->
  match run' fuel G w with
  | Returns _ _ => False
  | Raises _ _ | Blocks _ | OutOfFuel _ => True
  end.
Proof.
  intros Hstop. pose proof (worker_run_not_returned fuel G w Hstop) as Hnot.
  destruct (run' fuel G w) as [[] w'|e w'|w'|w']; try exact I.
  by apply (Hnot w').
Qed.

(** On an empty queue the worker spins. *)
Lemma worker_spins (fuel : nat) (G : Globals) (q : QueueRef)
    (w : ProcessorThread.t) :
  ProcessorThread.stop w = false -> g_q G = Some q ->
  ProcessorThread.queue w = [] ->
  run' fuel G w = OutOfFuel w.
Proof.
  intros Hstop Hq Hempty. induction fuel as [|fuel IH]; [reflexivity|].
  simpl. rewrite Hstop. unfold seq at 1. rewrite Hq. simpl.
  unfold seq at 1. unfold ProcessorThread.q_empty. rewrite Hempty.
  simpl. exact IH.
Qed.

(** A worker in front of a queue of items for local modules whose [run]
    returns: given a round for every item (and any number of further
    rounds), it has called [run] for the items in the order of the
    queue, the queue is empty, and [task_done] has been called once for
    every item. *)
Theorem worker_drains_queue (G : Globals) (q : QueueRef) (extra : nat)
    (w : ProcessorThread.t) :
  ProcessorThread.stop w = false ->
  g_q G = Some q ->
  Forall (fun item => Mod.local (fst item) = true) (ProcessorThread.queue w) ->
  (forall m d sh, exists sh', module_run m d sh = Returns tt sh') ->
  length (ProcessorThread.queue w) <= ProcessorThread.unfinished w ->
  run' (length (ProcessorThread.queue w) + extra) G w
  = OutOfFuel
      {| ProcessorThread.stop := false;
         ProcessorThread.loadbalancemaster :=
           ProcessorThread.loadbalancemaster w;
         ProcessorThread.clients := ProcessorThread.clients w;
         ProcessorThread.constructed := ProcessorThread.constructed w;
         ProcessorThread.queue := [];
         ProcessorThread.unfinished :=
           ProcessorThread.unfinished w - length (ProcessorThread.queue w);
         ProcessorThread.shared :=
           run_in_turn module_run (ProcessorThread.queue w)
             (ProcessorThread.shared w);
         ProcessorThread.lblog := ProcessorThread.lblog w |}.
Proof.
  intros Hstop Hq Hlocal Hreturns.
  destruct w as [st lbm cl n items unf sh lb]. simpl in *. subst st.
  revert unf sh. induction items as [|[m d] items IH]; intros unf sh Hlen.
  - simpl. rewrite Nat.sub_0_r. by apply (worker_spins _ _ q).
  - apply Forall_cons in Hlocal as [Hm Hitems]. simpl in Hm, Hlen.
    destruct unf as [|unf]; [lia|].
    simpl. unfold seq at 1. rewrite Hq. simpl.
    unfold seq at 1. unfold ProcessorThread.q_empty; simpl.
    unfold seq at 1. unfold ProcessorThread.q_get; simpl.
    unfold seq at 1. rewrite Hm.
    unfold ProcessorThread.on_shared, zoom; simpl.
    destruct (Hreturns m d sh) as [sh' Hrun]. rewrite Hrun. simpl.
    unfold seq at 1. unfold ProcessorThread.q_task_done; simpl.
    rewrite (IH Hitems unf sh') by lia. unfold run_in_turn. cbn.
    rewrite ?Hrun. reflexivity.
Qed.

End WorkerLoop.

Lemma worker_never_returns_witness :
  match ProcessorThread.run example_run example_runclient 5 globals_with_q
          worker_two_items with
  | Returns _ _ => False
  | Raises _ _ | Blocks _ | OutOfFuel _ => True
  end.
Proof.
  apply (worker_never_returns example_run example_runclient 5 globals_with_q
           worker_two_items).
  reflexivity.
Defined.

Lemma worker_drains_queue_witness :
  ProcessorThread.run logging_run example_runclient
    (length (ProcessorThread.queue worker_two_logging) + 3) globals_with_q
    worker_two_logging
  = OutOfFuel
      {| ProcessorThread.stop := false;
         ProcessorThread.loadbalancemaster :=
           ProcessorThread.loadbalancemaster worker_two_logging;
         ProcessorThread.clients := ProcessorThread.clients worker_two_logging;
         ProcessorThread.constructed :=
           ProcessorThread.constructed worker_two_logging;
         ProcessorThread.queue := [];
         ProcessorThread.unfinished :=
           ProcessorThread.unfinished worker_two_logging
           - length (ProcessorThread.queue worker_two_logging);
         ProcessorThread.shared :=
           run_in_turn logging_run (ProcessorThread.queue worker_two_logging)
             (ProcessorThread.shared worker_two_logging);
         ProcessorThread.lblog := ProcessorThread.lblog worker_two_logging |}.
Proof.
  apply (worker_drains_queue logging_run example_runclient globals_with_q
           DispatchQueue 3 worker_two_logging).
  - reflexivity.
  - reflexivity.
  - repeat constructor.
  - intros m d sh. eexists. reflexivity.
  - simpl. apply Nat.le_refl.
Defined.

Example worker_two_logging_events :
  events (run_in_turn logging_run (ProcessorThread.queue worker_two_logging)
            free_lock)
  = [EvLog "run first"; EvLog "run second"].
Proof. reflexivity. Qed.

(** ** LineByLineClient.send *)

Lemma last_cons_is_Some {A} (x : A) (l : list A) : is_Some (last (x :: l)).
Proof.
  revert x. induction l as [|y l IH]; intros x; simpl; [eauto|apply IH].
Qed.

Lemma last_byte_encode (msg : string) :
  msg <> "" -> exists b, last_byte (encode msg) = Ok b.
Proof.
  intros Hne. destruct msg as [|a msg]; [contradiction|].
  unfold last_byte.
  change (encode (String a msg)) with (Ascii.byte_of_ascii a :: encode msg).
  destruct (last_cons_is_Some (Ascii.byte_of_ascii a) (encode msg)) as [b ->].
  eauto.
Qed.

(** A client as [__init__] leaves it (no attribute [sock]) transmits
    nothing: every call of [send] ends in an exception and the
    connection has seen no byte. *)
Theorem send_never_transmits (G : Globals) (msg : string)
    (w : LineByLineClient.t) :
  LineByLineClient.sock w = None ->
  exists e w',
    LineByLineClient.send G msg w = Raises e w'
    /\ LineByLineClient.stream w' = LineByLineClient.stream w.
Proof.
  intros Hsock.
  unfold LineByLineClient.send, LineByLineClient.connect, seq, lift, global,
    attr.
  destruct (LineByLineClient.connected w).
  - destruct (last_byte (encode msg)); [|eauto].
    rewrite Hsock. eauto.
  - destruct (g_host G); [|eauto]. destruct (g_port G); [|eauto].
    destruct (last_byte (encode msg)); [|simpl; eauto].
    simpl. rewrite Hsock. simpl. eauto.
Qed.

Lemma send_never_transmits_witness :
  exists e w',
    LineByLineClient.send gecco_globals "hello" fresh_client = Raises e w'
    /\ LineByLineClient.stream w' = LineByLineClient.stream fresh_client.
Proof.
  apply (send_never_transmits gecco_globals "hello" fresh_client).
  reflexivity.
Defined.

(** On a connected client whose attribute [sock] is assigned, [send]
    transmits every message that is not empty followed by a newline,
    also a message that ends in a newline already: the test
    [msg[-1] != b"\n"] compares an [int] with a [bytes] object. *)
Theorem send_appends_newline (G : Globals) (msg : string)
    (w : LineByLineClient.t) :
  LineByLineClient.connected w = true ->
  LineByLineClient.sock w = Some tt ->
  msg <> "" ->
  LineByLineClient.send G msg w
  = Returns tt
      {| LineByLineClient.connected := true;
         LineByLineClient.sock := Some tt;
         LineByLineClient.peer := LineByLineClient.peer w;
         LineByLineClient.stream :=
           {| incoming := incoming (LineByLineClient.stream w);
              peer_closed := peer_closed (LineByLineClient.stream w);
              sent := sent (LineByLineClient.stream w)
                      ++ [encode msg ++ newline] |} |}.
Proof.
  intros Hconn Hsock Hne.
  unfold LineByLineClient.send, seq, lift, attr.
  rewrite Hconn. destruct (last_byte_encode msg Hne) as [b ->].
  rewrite Hsock. unfold LineByLineClient.on_stream, zoom, sendall. simpl.
  rewrite Hconn, Hsock. reflexivity.
Qed.

Lemma send_appends_newline_witness :
  LineByLineClient.send gecco_globals hello_line client_with_sock
  = Returns tt
      {| LineByLineClient.connected := true;
         LineByLineClient.sock := Some tt;
         LineByLineClient.peer := LineByLineClient.peer client_with_sock;
         LineByLineClient.stream :=
           {| incoming := incoming (LineByLineClient.stream client_with_sock);
              peer_closed :=
                peer_closed (LineByLineClient.stream client_with_sock);
              sent := sent (LineByLineClient.stream client_with_sock)
                      ++ [encode hello_line ++ newline] |} |}.
Proof.
  apply (send_appends_newline gecco_globals hello_line client_with_sock).
  - reflexivity.
  - reflexivity.
  - discriminate.
Defined.

Example send_hello_line_twice_terminated :
  encode hello_line ++ newline
  = encode "hello" ++ [Byte.x0a; Byte.x0a].
Proof. reflexivity. Qed.

(** ** The registry of Corrector *)

Lemma get_set_module (ms : list (string * Mod.t)) (id : string) (m : Mod.t) :
  Corrector.get_module (Corrector.set_module ms id m) id = Ok m.
Proof.
  induction ms as [|[k old] ms IH]; simpl.
  - by rewrite decide_True.
  - destruct (decide (k = id)) as [->|Hne]; simpl.
    + by rewrite decide_True.
    + by rewrite decide_False.
Qed.

Lemma get_set_module_other (ms : list (string * Mod.t)) (id id' : string)
    (m : Mod.t) :
  id' <> id ->
  Corrector.get_module (Corrector.set_module ms id m) id'
  = Corrector.get_module ms id'.
Proof.
  intros Hne. induction ms as [|[k old] ms IH]; simpl.
  - by rewrite decide_False.
  - destruct (decide (k = id)) as [->|Hk]; simpl.
    + by rewrite !decide_False.
    + destruct (decide (k = id')); [reflexivity|exact IH].
Qed.

Lemma set_module_keys (ms : list (string * Mod.t)) (id : string) (m : Mod.t) :
  map fst (Corrector.set_module ms id m)
  = if bool_decide (id ∈ map fst ms) then map fst ms else map fst ms ++ [id].
Proof.
  induction ms as [|[k old] ms IH]; simpl; [reflexivity|].
  destruct (decide (k = id)) as [->|Hk]; simpl.
  - rewrite bool_decide_eq_true_2 by apply list_elem_of_here. reflexivity.
  - rewrite IH. destruct (bool_decide (id ∈ map fst ms)) eqn:Hin.
    + apply bool_decide_eq_true in Hin.
      rewrite bool_decide_eq_true_2 by (by apply list_elem_of_further).
      reflexivity.
    + apply bool_decide_eq_false in Hin.
      rewrite bool_decide_eq_false_2; [reflexivity|].
      intros [Heq|Hin']%elem_of_cons; [congruence|contradiction].
Qed.

(** [append(id, module)] registers the module under [id]: [train(id)]
    returns it afterwards, the modules of the other ids are untouched,
    and the order of the ids is kept, a new id coming last and an id
    that was registered keeping its place, so that the registry grows by
    one or not at all. *)
Theorem append_registers_module (self : Corrector.t) (id : string)
    (m : Mod.t) :
  Corrector.train (Corrector.append self id m) (Some id) = Ok m
  /\ (forall id', id' <> id ->
         Corrector.train (Corrector.append self id m) (Some id')
         = Corrector.train self (Some id'))
  /\ map fst (Corrector.modules (Corrector.append self id m))
     = (if bool_decide (id ∈ map fst (Corrector.modules self))
        then map fst (Corrector.modules self)
        else map fst (Corrector.modules self) ++ [id])
  /\ Corrector.len (Corrector.append self id m)
     = (if bool_decide (id ∈ map fst (Corrector.modules self))
        then Corrector.len self else S (Corrector.len self)).
Proof.
  unfold Corrector.train, Corrector.append, Corrector.len; simpl.
  split; [apply get_set_module|].
  split; [intros id' Hne; by apply get_set_module_other|].
  split; [apply set_module_keys|].
  rewrite <- !(length_map fst), set_module_keys.
  destruct (bool_decide (id ∈ map fst (Corrector.modules self)));
    [reflexivity|].
  rewrite length_app. simpl. lia.
Qed.

(** ** Module.init *)

(** [init] declares the module's set for corrections unless the
    document declares it already: every declaration of the document is
    kept, no set is declared twice, and a second call changes nothing. *)
Theorem init_declares_once (self : Mod.t) (declared : list Setting) :
  Mod.init self (Mod.init self declared) = Mod.init self declared
  /\ (forall set, set ∈ declared -> set ∈ Mod.init self declared)
  /\ (NoDup declared -> NoDup (Mod.init self declared))
  /\ (forall set,
         Mod.settings self !! "set" = Some set -> Mod.truthy set = true ->
         set ∈ Mod.init self declared).
Proof.
  unfold Mod.init.
  destruct (Mod.settings self !! "set") as [set|];
    [|repeat split; auto; discriminate].
  destruct (Mod.truthy set) eqn:Htruthy;
    [|repeat split; auto; intros ? [= <-]; congruence].
  destruct (bool_decide (set ∈ declared)) eqn:Hin.
  - rewrite Hin. apply bool_decide_eq_true in Hin.
    repeat split; auto. by intros ? [= <-] _.
  - apply bool_decide_eq_false in Hin.
    rewrite bool_decide_eq_true_2
      by (apply elem_of_app; right; apply list_elem_of_here).
    repeat split.
    + intros x Hx. apply elem_of_app. by left.
    + intros Hnd. apply NoDup_app. repeat split; [exact Hnd| |apply NoDup_singleton].
      intros x Hx ->%list_elem_of_singleton. contradiction.
    + intros ? [= <-] _. apply elem_of_app. right. apply list_elem_of_here.
Qed.

(** ** Dispatch to remote modules *)

Section RemoteDispatch.

Variable module_run : Mod.t -> Data -> eff Shared unit.
Variable module_runclient : Mod.t -> ClientObj -> Data -> eff Shared unit.

(** A remote module whose list of endpoints has no or several entries
    cannot be processed, whatever the global names are bound to: the
    worker raises before it looks for a client, [runclient] is not
    called, and the lock, the document and the client cache are as they
    were.  ([loadbalancemaster] is not bound in [gecco.py]; were it
    bound, [LoadBalanceMaster.get] returns [None], which cannot be
    unpacked into [server, port].) *)
Theorem several_endpoints_not_dispatched (G : Globals) (module : Mod.t)
    (data : Data) (w : ProcessorThread.t) (l : list Endpoint) :
  Mod.local module = false ->
  Mod.settings module !! "servers" = Some (SServers l) ->
  length l <> 1 ->
  exists e w',
    ProcessorThread.run_item module_run module_runclient G (module, data) w
    = Raises e w'
    /\ ProcessorThread.shared w' = ProcessorThread.shared w
    /\ ProcessorThread.clients w' = ProcessorThread.clients w
    /\ ProcessorThread.constructed w' = ProcessorThread.constructed w.
Proof.
  intros Hlocal Hservers Hlen. unfold ProcessorThread.run_item.
  rewrite Hlocal. unfold seq at 1. unfold ProcessorThread.on_lblog, zoom.
  unfold Mod.findserver, Mod.servers_setting, Mod.getitem.
  rewrite Hlocal, Hservers. unfold seq at 1. unfold lift at 1. cbn.
  destruct (Nat.eqb_spec (length l) 1) as [|_]; [contradiction|].
  unfold seq at 1. unfold lift at 1, global.
  destruct (g_loadbalancemaster G) as [lbm|]; cbn; [|eauto 10].
  unfold seq, raise. cbn. eauto 10.
Qed.

(** On a cache hit the worker hands the cached client to [runclient]:
    it constructs no client and leaves the cache as it is, whatever the
    global names are bound to. *)
Theorem cached_client_is_reused (G : Globals) (module : Mod.t) (data : Data)
    (w : ProcessorThread.t) (endpoint : Endpoint) (c : ClientObj) :
  Mod.local module = false ->
  Mod.settings module !! "servers" = Some (SServers [endpoint]) ->
  ProcessorThread.clients w !! endpoint = Some c ->
  let o := ProcessorThread.run_item module_run module_runclient G
             (module, data) w in
  o = ProcessorThread.on_shared (module_runclient module c data) w
  /\ ProcessorThread.clients (final o) = ProcessorThread.clients w
  /\ ProcessorThread.constructed (final o) = ProcessorThread.constructed w.
Proof.
  intros Hlocal Hservers Hc o. subst o.
  rewrite (run_item_cache_hit module_run module_runclient G module data w
             endpoint c Hlocal Hservers Hc).
  split; [reflexivity|].
  unfold ProcessorThread.on_shared, zoom.
  destruct (module_runclient module c data (ProcessorThread.shared w));
    split; reflexivity.
Qed.

End RemoteDispatch.

Lemma several_endpoints_not_dispatched_witness :
  exists e w',
    ProcessorThread.run_item example_run example_runclient
      globals_with_balancer (two_endpoint_module, Element Word "w1")
      worker_remote_item
    = Raises e w'
    /\ ProcessorThread.shared w' = ProcessorThread.shared worker_remote_item
    /\ ProcessorThread.clients w' = ProcessorThread.clients worker_remote_item
    /\ ProcessorThread.constructed w'
       = ProcessorThread.constructed worker_remote_item.
Proof.
  apply (several_endpoints_not_dispatched example_run example_runclient
           globals_with_balancer two_endpoint_module (Element Word "w1")
           worker_remote_item [("alpha", 9000%Z); ("beta", 9000%Z)]).
  - reflexivity.
  - reflexivity.
  - discriminate.
Defined.

Lemma cached_client_is_reused_witness :
  let o := ProcessorThread.run_item example_run example_runclient
             gecco_globals (single_endpoint_module, Element Word "w1")
             worker_with_client in
  o = ProcessorThread.on_shared
        (example_runclient single_endpoint_module cached_client_obj
           (Element Word "w1")) worker_with_client
  /\ ProcessorThread.clients (final o)
     = ProcessorThread.clients worker_with_client
  /\ ProcessorThread.constructed (final o)
     = ProcessorThread.constructed worker_with_client.
Proof.
  apply (cached_client_is_reused example_run example_runclient gecco_globals
           single_endpoint_module (Element Word "w1") worker_with_client
           ("localhost", 9000%Z) cached_client_obj).
  - reflexivity.
  - reflexivity.
  - reflexivity.
Defined.
